(** * notion_tasks_report: a shallow embedding of [main.py]

    The script queries a Notion workspace for open tasks, sorts them into
    five buckets, renders a Markdown report and a plain-text report, keeps a
    JSON cache of project names, and rotates and retires old report files.

    The embedding follows the source function by function.  Everything the
    script reaches through a library (the Notion client, the file system,
    the wall clock, the logger) is an explicit component of a [world] that
    the functions thread through a small state-and-exception monad. *)

From stdpp Require Import gmap strings list fin_maps.
From Stdlib Require Import ZArith DecimalString Ascii String.

Open Scope string_scope.
Open Scope Z_scope.

(** ** Python values *)

(** The exceptions that the modelled code can meet.  [APIResponseError] stands
    for any failure raised by the Notion client. *)
Inductive exn : Type :=
  | KeyError (key : string)
  | IndexError
  | TypeError
  | AttributeError
  | FileNotFoundError (path : string)
  | JSONDecodeError
  | OSError
  | APIResponseError
  | RuntimeError.

Inductive result (A : Type) : Type :=
  | Ok (a : A)
  | Raise (e : exn).
Arguments Ok {A} a.
Arguments Raise {A} e.

(** A key of a JSON object: missing, present with [null], or present with a
    value.  Python tells the three apart: [d.get(k, dflt)] gives [dflt] only
    for a missing key, [d[k]] raises [KeyError] only for a missing key. *)
Inductive field (A : Type) : Type :=
  | Absent
  | Null
  | Val (a : A).
Arguments Absent {A}.
Arguments Null {A}.
Arguments Val {A} a.

(** A JSON leaf that the script formats into text: a [str] or [None]. *)
Abbreviation pystr := (option string).

(** [str(x)] as an f-string applies it. *)
Definition py_str (x : pystr) : string :=
  match x with
  | Some s => s
  | None => "None"
  end.

(** [d.get(key, dflt)] when the value is itself an object or a list:
    [inl tt] is Python's [None]. *)
Definition dict_get {A : Type} (f : field A) (dflt : A) : unit + A :=
  match f with
  | Absent => inr dflt
  | Null => inl tt
  | Val a => inr a
  end.

(** [d.get(key, dflt)] on a leaf. *)
Definition dict_get_str (f : field string) (dflt : pystr) : pystr :=
  match f with
  | Absent => dflt
  | Null => None
  | Val s => Some s
  end.

(** [d[key]]. *)
Definition subscript {A : Type} (key : string) (f : field A) : result (unit + A) :=
  match f with
  | Absent => Raise (KeyError key)
  | Null => Ok (inl tt)
  | Val a => Ok (inr a)
  end.

(** Any use of [None] as an object ([None.get(..)], [None[..]], iterating
    it) raises; [on_none] is the exception of that use. *)
Definition not_none {A : Type} (on_none : exn) (x : unit + A) : result A :=
  match x with
  | inl _ => Raise on_none
  | inr a => Ok a
  end.

(** [l[0]]. *)
Definition first_item {A : Type} (l : list A) : result A :=
  match l with
  | [] => Raise IndexError
  | x :: _ => Ok x
  end.

(** ** Strings *)

(** [s.replace(c, "")] for a one-character [c]: every occurrence goes. *)
Fixpoint remove_char (c : ascii) (s : string) : string :=
  match s with
  | EmptyString => EmptyString
  | String a s' =>
      if Ascii.eqb a c then remove_char c s' else String a (remove_char c s')
  end.

(** [task_line.replace("[", "").replace("]", "")] *)
Definition strip_brackets (s : string) : string :=
  remove_char "]" (remove_char "[" s).

(** [needle in hay] *)
Fixpoint is_prefix (p s : string) : bool :=
  match p, s with
  | EmptyString, _ => true
  | String a p', String b s' => Ascii.eqb a b && is_prefix p' s'
  | String _ _, EmptyString => false
  end.

Fixpoint contains (needle hay : string) : bool :=
  is_prefix needle hay ||
  match hay with
  | EmptyString => false
  | String _ hay' => contains needle hay'
  end.

(** [str(n)] for a non-negative [int]. *)
Definition str_of_nat (n : nat) : string :=
  NilZero.string_of_uint (Nat.to_uint n).

Definition digit (d : Z) : ascii := ascii_of_nat (48 + Z.to_nat (d mod 10)).

(** [%02d] and [%04d] *)
Definition pad2 (n : Z) : string :=
  String (digit (n / 10)) (String (digit n) EmptyString).
Definition pad4 (n : Z) : string :=
  String (digit (n / 1000)) (String (digit (n / 100)) (pad2 n)).

(** ** Time

    A naive local [datetime] is the number of microseconds since
    0001-01-01T00:00:00, the origin of Python's [datetime]; a [timedelta] is
    a number of microseconds; a [date] is a day number, 0 for 0001-01-01. *)
Definition datetime := Z.
Definition timedelta := Z.
Definition date := Z.

Definition usec_per_second : Z := 1000000.
Definition usec_per_hour : Z := 3600 * usec_per_second.
Definition usec_per_day : Z := 24 * usec_per_hour.

(** [timedelta(hours=h)], [timedelta(days=d)] *)
Definition timedelta_hours (h : Z) : timedelta := h * usec_per_hour.
Definition timedelta_days (d : Z) : timedelta := d * usec_per_day.

(** [td.days]: Python normalises so that seconds and microseconds are
    non-negative, hence the floor. *)
Definition days (td : timedelta) : Z := td / usec_per_day.

(** [dt.date()] *)
Definition date_of (dt : datetime) : date := dt / usec_per_day.

(** Day number to (year, month, day), after CPython's [_ord2ymd]. *)
Definition days_before_month (leap : bool) (m : Z) : Z :=
  let base :=
    match m with
    | 1 => 0 | 2 => 31 | 3 => 59 | 4 => 90 | 5 => 120 | 6 => 151
    | 7 => 181 | 8 => 212 | 9 => 243 | 10 => 273 | 11 => 304 | _ => 334
    end in
  if leap && (2 <? m) then base + 1 else base.

Definition days_in_month (leap : bool) (m : Z) : Z :=
  match m with
  | 2 => if leap then 29 else 28
  | 4 | 6 | 9 | 11 => 30
  | _ => 31
  end.

Definition ymd_of (d : date) : Z * Z * Z :=
  let n400 := d / 146097 in
  let n := d mod 146097 in
  let n100 := n / 36524 in
  let n := n mod 36524 in
  let n4 := n / 1461 in
  let n := n mod 1461 in
  let n1 := n / 365 in
  let n := n mod 365 in
  let year := n400 * 400 + 1 + n100 * 100 + n4 * 4 + n1 in
  if (n1 =? 4) || (n100 =? 4) then (year - 1, 12, 31)
  else
    let leap := (n1 =? 3) && (negb (n4 =? 24) || (n100 =? 3)) in
    let month := Z.shiftr (n + 50) 5 in
    let preceding := days_before_month leap month in
    if n <? preceding
    then (year, month - 1,
          n - (preceding - days_in_month leap (month - 1)) + 1)
    else (year, month, n - preceding + 1).

(** [dt.strftime("%Y_%m_%d")] *)
Definition strftime_archive (dt : datetime) : string :=
  let '(y, m, d) := ymd_of (date_of dt) in
  pad4 y ++ "_" ++ pad2 m ++ "_" ++ pad2 d.

(** [dt.strftime("%Y-%m-%d %H:%M:%S")] *)
Definition strftime_title (dt : datetime) : string :=
  let '(y, m, d) := ymd_of (date_of dt) in
  let s := (dt mod usec_per_day) / usec_per_second in
  pad4 y ++ "-" ++ pad2 m ++ "-" ++ pad2 d ++ " " ++
  pad2 (s / 3600) ++ ":" ++ pad2 (s / 60 mod 60) ++ ":" ++ pad2 (s mod 60).

(** [datetime(y, m, d, hh, mm, ss)] for building concrete inputs: the
    inverse direction, after CPython's [_ymd2ord]. *)
Definition is_leap (y : Z) : bool :=
  (y mod 4 =? 0) && (negb (y mod 100 =? 0) || (y mod 400 =? 0)).

Definition mk_date (y m d : Z) : date :=
  let y1 := y - 1 in
  y1 * 365 + y1 / 4 - y1 / 100 + y1 / 400
  + days_before_month (is_leap y) m + d - 1.

Definition mk_datetime (y m d hh mm ss : Z) : datetime :=
  mk_date y m d * usec_per_day + ((hh * 60 + mm) * 60 + ss) * usec_per_second.

Definition nl : string := String (ascii_of_nat 10) EmptyString.

(** ** The result monad of pure Python expressions *)

#[global] Instance result_ret : MRet result := fun _ a => Ok a.
#[global] Instance result_bind : MBind result := fun _ _ f r =>
  match r with
  | Ok a => f a
  | Raise e => Raise e
  end.

(** ** Notion pages, as the client hands them to the script

    Only the keys the script reads are kept.  A project entry and a task
    entry are both pages.  Every key may be missing or [null]; a leaf is
    text or [null].  Documents of another shape (a number at a leaf, a list
    where an object is read) are outside the model. *)

(** [{"content": ..}] *)
Record text_obj := { content : field string }.
(** [{"text": {..}}] *)
Record rich_text := { text : field text_obj }.
(** the [Name] property: [{"title": [..]}] *)
Record title_prop := { title : field (list rich_text) }.
(** [{"id": ..}] inside a relation *)
Record relation_ref := { rel_id : field string }.
(** the [Project] property: [{"relation": [..]}] *)
Record relation_prop := { relation : field (list relation_ref) }.
(** [{"name": ..}] *)
Record status_obj := { status_name : field string }.
(** the [Status] property: [{"status": {..}}] *)
Record status_prop := { status : field status_obj }.
(** [page["properties"]] *)
Record page_properties := {
  prop_Name : field title_prop;
  prop_Project : field relation_prop;
  prop_Status : field status_prop
}.
(** a page: [{"id": .., "url": .., "properties": {..}}] *)
Record page := {
  page_id : field string;
  page_url : field string;
  properties : field page_properties
}.

(** The [{}] and [[{}]] defaults of the [.get] chains. *)
Definition empty_text_obj : text_obj := {| content := Absent |}.
Definition empty_rich_text : rich_text := {| text := Absent |}.
Definition empty_title_prop : title_prop := {| title := Absent |}.
Definition empty_relation_prop : relation_prop := {| relation := Absent |}.
Definition empty_status_obj : status_obj := {| status_name := Absent |}.
Definition empty_status_prop : status_prop := {| status := Absent |}.
Definition empty_properties : page_properties :=
  {| prop_Name := Absent; prop_Project := Absent; prop_Status := Absent |}.

(** The answer of [notion.databases.query]: [{"results": [..]}]. *)
Record query_response := { results : field (list page) }.

(** ** Query filters, as the script builds them *)

Inductive status_condition : Type :=
  | does_not_equal (s : string)
  | equals (s : string).

(** A date operand is the day itself; the script sends its ISO text
    ([today.isoformat()]). *)
Inductive date_condition : Type :=
  | date_equals (d : date)
  | on_or_before (d : date)
  | on_or_after (d : date)
  | before (d : date)
  | is_empty (b : bool).

(** [{"property": p, "status": {..}}] and [{"property": p, "date": {..}}];
    a [date] object may hold several operators. *)
Inductive property_filter : Type :=
  | status_filter (property : string) (c : status_condition)
  | date_filter (property : string) (cs : list date_condition).

(** [{"and": [..]}] *)
Inductive query_filter : Type :=
  | filter_and (fs : list property_filter).

Inductive database : Type :=
  | NOTION_PROJECTS_DB
  | NOTION_TASKS_DB.

(** The arguments of one [notion.databases.query] call. *)
Record request := {
  database_id : database;
  filter_arg : option query_filter;
  properties_arg : option (list string)
}.

(** ** Task records

    [process_task] returns the tuple
    [(task_name, task_url, project_id, status)]. *)
Definition task : Type := pystr * pystr * pystr * pystr.

(** The body of [process_task], lines 208-221, before its [except]. *)
Definition process_task_body (t : page) : result task :=
  props ← not_none AttributeError (dict_get (properties t) empty_properties);
  name_prop ← not_none AttributeError (dict_get (prop_Name props) empty_title_prop);
  titles ← not_none TypeError (dict_get (title name_prop) [empty_rich_text]);
  first ← first_item titles;
  txt ← not_none AttributeError (dict_get (text first) empty_text_obj);
  let task_name := dict_get_str (content txt) (Some "Unknown Task") in
  let task_url := dict_get_str (page_url t) (Some "") in
  project_prop ← not_none AttributeError (dict_get (prop_Project props) empty_relation_prop);
  let project_relation := dict_get (relation project_prop) [] in
  let project_id :=
    match project_relation with
    | inr (r :: _) => dict_get_str (rel_id r) None
    | _ => None
    end in
  status_p ← not_none AttributeError (dict_get (prop_Status props) empty_status_prop);
  status_o ← not_none AttributeError (dict_get (status status_p) empty_status_obj);
  let status := dict_get_str (status_name status_o) (Some "Unknown") in
  mret (task_name, task_url, project_id, status).

(** ** The project cache file *)

(** [{"generated_at": .., "projects": {id: name}}]; [generated_at] is kept
    as the instant whose ISO text the file holds. *)
Record projects_info := {
  generated_at : datetime;
  projects : field (gmap string pystr)
}.

(** [json.dump] writes a [None] key as ["null"]. *)
Definition json_key (k : pystr) : string :=
  match k with
  | Some s => s
  | None => "null"
  end.

(** One round of the dict comprehension of [refresh_projects_info], lines
    82-84: [None] when the [if] rejects the entry. *)
Definition project_item (project : page) : result (option (string * pystr)) :=
  props ← subscript "properties" (properties project);
  props ← not_none TypeError props;
  match prop_Name props with
  | Absent => mret None
  | name_prop =>
      key ← subscript "id" (page_id project);
      name_prop ← subscript "Name" name_prop;
      name_prop ← not_none TypeError name_prop;
      titles ← subscript "title" (title name_prop);
      titles ← not_none TypeError titles;
      first ← first_item titles;
      txt ← subscript "text" (text first);
      txt ← not_none TypeError txt;
      name ← subscript "content" (content txt);
      let key := match key with inl _ => None | inr s => Some s end in
      let name := match name with inl _ => None | inr s => Some s end in
      mret (Some (json_key key, name))
  end.

(** The whole comprehension: entries in order, a later key overwrites an
    earlier one, the first exception ends it. *)
Fixpoint project_items (entries : list page) (acc : gmap string pystr)
  : result (gmap string pystr) :=
  match entries with
  | [] => mret acc
  | project :: rest =>
      item ← project_item project;
      match item with
      | Some (k, v) => project_items rest (<[k := v]> acc)
      | None => project_items rest acc
      end
  end.

(** ** Rendering one task line, lines 326-334 of [write_section] *)

Definition format_task_line (info : projects_info) (t : task) : result string :=
  let '(task_name, task_url, project_id, status) := t in
  cache ← subscript "projects" (projects info);
  cache ← not_none AttributeError cache;
  let project_name : pystr :=
    match project_id with
    | Some pid =>
        match cache !! pid with
        | Some v => v
        | None => Some "Unknown Project"
        end
    | None => Some "Unknown Project"
    end in
  let task_line := "- [ ] [" ++ py_str task_name ++ "](" ++ py_str task_url ++ ")" in
  let task_line :=
    if decide (project_name = Some "Unknown Project") then task_line
    else task_line ++ " (Project: " ++ py_str project_name ++ ")" in
  let task_line :=
    match status with
    | Some s =>
        if negb (String.eqb s "") && negb (String.eqb s "Unknown")
        then task_line ++ ", Status: " ++ s
        else task_line
    | None => task_line
    end in
  mret task_line.

(** ** The world around the script *)

Inductive level : Type := DEBUG | INFO | ERROR.

(** A log message is kept as the pieces of its f-string. *)
Inductive log_part : Type :=
  | Txt (s : string)
  | Num (n : nat)
  | Exn (e : exn)
  | Tasks (l : list task).

Record log_record := { levelname : level; message : list log_part }.

(** What a file holds: report text, or the JSON document of the cache
    ([json.dump] followed by [json.load] is the identity on it; report text
    is not a JSON document). *)
Inductive file_data : Type :=
  | Text (s : string)
  | Json (j : projects_info).

Record file := { data : file_data; mtime : datetime }.

(** Places where the environment can make a call fail: the [n]-th reading
    of the clock, the [n]-th write to a report file, removing a path,
    writing the JSON document of a path. *)
Inductive fault_site : Type :=
  | AtNow (n : nat)
  | AtWrite (n : nat)
  | AtRemove (path : string)
  | AtDump (path : string).

(** What the script does not control: the wall clock (its successive
    readings), the answers of the Notion client, and the faults. *)
Record env := {
  clock : nat -> datetime;
  query : request -> result query_response;
  fault : fault_site -> option exn
}.

(** What the script changes: the files, the log, the queries sent so far,
    and the counters of clock readings and report writes. *)
Record world := {
  fs : gmap string file;
  log : list log_record;
  queries : list request;
  ticks : nat;
  writes : nat
}.

Definition set_fs (f : gmap string file -> gmap string file) (w : world) : world :=
  {| fs := f (fs w); log := log w; queries := queries w;
     ticks := ticks w; writes := writes w |}.
Definition add_log (r : log_record) (w : world) : world :=
  {| fs := fs w; log := log w ++ [r]; queries := queries w;
     ticks := ticks w; writes := writes w |}.
Definition add_query (r : request) (w : world) : world :=
  {| fs := fs w; log := log w; queries := queries w ++ [r];
     ticks := ticks w; writes := writes w |}.
Definition tick (w : world) : world :=
  {| fs := fs w; log := log w; queries := queries w;
     ticks := S (ticks w); writes := writes w |}.
Definition count_write (w : world) : world :=
  {| fs := fs w; log := log w; queries := queries w;
     ticks := ticks w; writes := S (writes w) |}.

(** ** The monad: state, and exceptions that keep the state *)

Definition M (A : Type) : Type := world -> result A * world.

#[global] Instance M_ret : MRet M := fun _ a w => (Ok a, w).
#[global] Instance M_bind : MBind M := fun _ _ k m w =>
  match m w with
  | (Ok a, w') => k a w'
  | (Raise e, w') => (Raise e, w')
  end.

Definition raise {A : Type} (e : exn) : M A := fun w => (Raise e, w).

(** [try: m  except Exception as e: h e] *)
Definition try_except {A : Type} (m : M A) (h : exn -> M A) : M A := fun w =>
  match m w with
  | (Ok a, w') => (Ok a, w')
  | (Raise e, w') => h e w'
  end.

(** A pure expression that may raise. *)
Definition lift {A : Type} (r : result A) : M A := fun w => (r, w).

(** [for x in l: body x] *)
Fixpoint for_each {A : Type} (l : list A) (body : A -> M unit) : M unit :=
  match l with
  | [] => mret tt
  | x :: rest => body x;; for_each rest body
  end.

(** ** Constants of the script *)

Definition TARGET_DIR : string := "target".
Definition PROJECTS_JSON_FILE : string := TARGET_DIR ++ "/notion-projects.json".
Definition REPORT_FILE_MD : string := TARGET_DIR ++ "/tasks_report.md".
Definition REPORT_FILE_TXT : string := TARGET_DIR ++ "/tasks_report.txt".

(** ** File names and [glob] *)

Fixpoint drop_prefix (p s : string) : option string :=
  match p, s with
  | EmptyString, _ => Some s
  | String a p', String b s' =>
      if Ascii.eqb a b then drop_prefix p' s' else None
  | String _ _, EmptyString => None
  end.

Definition ends_with (suffix s : string) : bool :=
  let n := String.length s in
  let k := String.length suffix in
  (k <=? n)%nat && String.eqb (substring (n - k) k s) suffix.

(** Does [path] match the pattern [before ++ "*" ++ after], the star taken
    inside one directory? *)
Definition glob_match (before after path : string) : bool :=
  match drop_prefix before path with
  | Some rest => ends_with after rest && negb (contains "/" rest)
  | None => false
  end.

(** ** Library calls *)

Section Script.

Variable E : env.

(** [datetime.now()] *)
Definition now : M datetime := fun w =>
  match fault E (AtNow (ticks w)) with
  | Some e => (Raise e, tick w)
  | None => (Ok (clock E (ticks w)), tick w)
  end.

(** [logger.debug], [logger.info], [logger.error] *)
Definition logger (l : level) (msg : list log_part) : M unit := fun w =>
  (Ok tt, add_log {| levelname := l; message := msg |} w).

(** [notion.databases.query(..)] *)
Definition databases_query (r : request) : M query_response := fun w =>
  (query E r, add_query r w).

(** [os.path.exists] *)
Definition path_exists (p : string) : M bool := fun w =>
  (Ok (bool_decide (is_Some (fs w !! p))), w).

(** [os.path.getmtime], read as a local [datetime] *)
Definition getmtime (p : string) : M datetime := fun w =>
  match fs w !! p with
  | Some f => (Ok (mtime f), w)
  | None => (Raise (FileNotFoundError p), w)
  end.

(** [os.remove] *)
Definition os_remove (p : string) : M unit := fun w =>
  match fault E (AtRemove p) with
  | Some e => (Raise e, w)
  | None =>
      match fs w !! p with
      | Some _ => (Ok tt, set_fs (delete p) w)
      | None => (Raise (FileNotFoundError p), w)
      end
  end.

(** [shutil.move(src, dst)] between two file names of one directory: a
    rename, which replaces [dst] and keeps the modification time. *)
Definition shutil_move (src dst : string) : M unit := fun w =>
  match fs w !! src with
  | Some f => (Ok tt, set_fs (fun m => <[dst := f]> (delete src m)) w)
  | None => (Raise (FileNotFoundError src), w)
  end.

(** [glob.glob(before + "*" + after)] *)
Definition glob (before after : string) : M (list string) := fun w =>
  (Ok (filter (fun p => Is_true (glob_match before after p))
         (fst <$> map_to_list (fs w))), w).

(** [open(p, "w")]: the file is created or emptied at once.  The file
    system stamps it with the instant the clock would read next. *)
Definition open_w (p : string) : M unit := fun w =>
  (Ok tt, set_fs (<[p := {| data := Text ""; mtime := clock E (ticks w) |}]>) w).

(** The text of a file; empty when there is none. *)
Definition file_text (m : gmap string file) (p : string) : string :=
  match m !! p with
  | Some {| data := Text s |} => s
  | _ => ""
  end.

(** [f.write(s)] on the report file opened at [p]. *)
Definition file_write (p : string) (s : string) : M unit := fun w =>
  match fault E (AtWrite (writes w)) with
  | Some e => (Raise e, count_write w)
  | None =>
      (Ok tt,
       count_write
         (set_fs (fun m => <[p := {| data := Text (file_text m p ++ s);
                                     mtime := clock E (ticks w) |}]> m) w))
  end.

(** [with open(p, "r") as f: json.load(f)] *)
Definition json_load (p : string) : M projects_info := fun w =>
  match fs w !! p with
  | Some {| data := Json j |} => (Ok j, w)
  | Some {| data := Text _ |} => (Raise JSONDecodeError, w)
  | None => (Raise (FileNotFoundError p), w)
  end.

(** [with open(p, "w") as f: json.dump(j, f, indent=4)]: [open] empties
    the file before [json.dump] writes to it, so a write that fails leaves
    the file without a document.  What a failed write leaves is empty or the
    beginning of the document, and [json.load] rejects both; the model
    keeps the file empty. *)
Definition dump_document (p : string) (j : projects_info) : M unit := fun w =>
  match fault E (AtDump p) with
  | Some e => (Raise e, w)
  | None =>
      (Ok tt, set_fs (<[p := {| data := Json j; mtime := clock E (ticks w) |}]>) w)
  end.

Definition json_dump (p : string) (j : projects_info) : M unit :=
  open_w p;;
  dump_document p j.

(** ** [cleanup_old_files], lines 55-66 *)

Definition cleanup_old_files : M unit :=
  current_time ← now;
  for_each [".md"; ".txt"] (fun ext =>
    paths ← glob (TARGET_DIR ++ "/tasks_report_") ext;
    for_each paths (fun file_path =>
      file_time ← getmtime file_path;
      if 7 <? days (current_time - file_time)
      then
        try_except
          (os_remove file_path;;
           logger INFO [Txt "Deleted old file: "; Txt file_path])
          (fun e =>
             logger ERROR [Txt "Error deleting file "; Txt file_path;
                           Txt ": "; Exn e])
      else mret tt)).

(** ** [refresh_projects_info], lines 68-90 *)

Definition projects_request : request :=
  {| database_id := NOTION_PROJECTS_DB; filter_arg := None; properties_arg := None |}.

Definition refresh_projects_info : M unit :=
  found ← path_exists PROJECTS_JSON_FILE;
  fresh ←
    (if found : bool then
       last_modified ← getmtime PROJECTS_JSON_FILE;
       t ← now;
       mret (t - last_modified <? timedelta_hours 24)
     else mret false);
  if fresh : bool then
    logger INFO [Txt "Project info is up to date."]
  else
    logger INFO [Txt "Fetching projects from Notion API..."];;
    projects_data ← databases_query projects_request;
    stamp ← now;
    entries ← lift (not_none TypeError (dict_get (results projects_data) []));
    names ← lift (project_items entries ∅);
    json_dump PROJECTS_JSON_FILE
      {| generated_at := stamp; projects := Val names |};;
    logger INFO [Txt "Projects info refreshed."].

(** ** [get_tasks], lines 92-293 *)

Definition status_not_done : property_filter :=
  status_filter "Status" (does_not_equal "Done").

Definition high_priority_filter (today : date) : query_filter :=
  filter_and [status_not_done;
              status_filter "Priority" (equals "High");
              date_filter "Due" [on_or_before today]].

Definition due_today_filter (today : date) : query_filter :=
  filter_and [status_not_done; date_filter "Due" [date_equals today]].

Definition overdue_filter (today last_week : date) : query_filter :=
  filter_and [status_not_done;
              date_filter "Due" [on_or_before today; on_or_after last_week]].

Definition no_due_date_filter : query_filter :=
  filter_and [status_not_done; date_filter "Due" [is_empty true]].

Definition older_overdue_filter (last_week : date) : query_filter :=
  filter_and [status_not_done; date_filter "Due" [before last_week]].

Definition tasks_request (f : query_filter) (props : list string) : request :=
  {| database_id := NOTION_TASKS_DB; filter_arg := Some f;
     properties_arg := Some props |}.

Definition detail_properties : list string := ["Name"; "Project"; "Due"; "Status"].

(** [process_task], lines 205-224 *)
Definition process_task (t : page) : M (option task) :=
  try_except
    (r ← lift (process_task_body t); mret (Some r))
    (fun e => logger ERROR [Txt "Error processing task: "; Exn e];; mret None).

(** [[task for task in (process_task(t) for t in pages) if task]] *)
Fixpoint process_tasks (pages : list page) : M (list task) :=
  match pages with
  | [] => mret []
  | t :: rest =>
      r ← process_task t;
      rs ← process_tasks rest;
      mret (match r with Some x => x :: rs | None => rs end)
  end.

(** One of the three [try] blocks of lines 227-258; [initial] is the value
    the variable had before the block and keeps when it fails. *)
Definition fetch_tasks (initial : list task) (f : query_filter)
    (props : list string) (label : string) : M (list task) :=
  try_except
    (data ← databases_query (tasks_request f props);
     pages ← lift (not_none TypeError (dict_get (results data) []));
     tasks ← process_tasks pages;
     logger INFO [Txt "Found "; Num (List.length tasks); Txt " "; Txt label; Txt " tasks"];;
     mret tasks)
    (fun e =>
       logger ERROR [Txt "Error fetching "; Txt label; Txt " tasks: "; Exn e];;
       mret initial).

(** One of the two [try] blocks of lines 261-281. *)
Definition fetch_count (initial : nat) (f : query_filter)
    (found_label error_label : string) : M nat :=
  try_except
    (data ← databases_query (tasks_request f detail_properties);
     pages ← lift (not_none TypeError (dict_get (results data) []));
     let n := List.length pages in
     logger INFO [Txt "Found "; Num n; Txt found_label];;
     mret n)
    (fun e =>
       logger ERROR [Txt "Error fetching "; Txt error_label; Txt ": "; Exn e];;
       mret initial).

Definition buckets : Type := list task * list task * list task * nat * nat.

Definition get_tasks : M buckets :=
  logger INFO [Txt "Fetching tasks from Notion API..."];;
  try_except
    (t ← now;
     let today := date_of t in
     let last_week := today - 7 in
     high_priority ←
       fetch_tasks [] (high_priority_filter today)
         ["Name"; "Project"; "Due"; "Status"; "Priority"] "high priority";
     due_today ←
       fetch_tasks [] (due_today_filter today) detail_properties "due today";
     overdue ←
       fetch_tasks [] (overdue_filter today last_week) detail_properties "overdue";
     no_due_date_count ←
       fetch_count 0%nat no_due_date_filter
         " tasks with no due date" "tasks with no due date";
     older_overdue_count ←
       fetch_count 0%nat (older_overdue_filter last_week)
         " tasks overdue for more than 7 days" "older overdue tasks";
     logger INFO [Txt "High priority tasks: "; Tasks high_priority];;
     logger INFO [Txt "Due today tasks: "; Tasks due_today];;
     logger INFO [Txt "Overdue tasks: "; Tasks overdue];;
     logger INFO [Txt "Tasks with no due date: "; Num no_due_date_count];;
     logger INFO [Txt "Tasks overdue for more than 7 days: "; Num older_overdue_count];;
     mret (high_priority, due_today, overdue, no_due_date_count, older_overdue_count))
    (fun e =>
       logger ERROR [Txt "Unexpected error in get_tasks: "; Exn e];;
       mret ([], [], [], 0%nat, 0%nat)).

(** ** [generate_report], lines 295-361 *)

(** Lines 305-312: archive the current pair, then sweep the archive.  This
    is the part the design calls rotate-and-cleanup. *)
Definition archive_path (timestamp ext : string) : string :=
  TARGET_DIR ++ "/tasks_report_" ++ timestamp ++ ext.

Definition rotate_and_cleanup : M unit :=
  found ← path_exists REPORT_FILE_MD;
  (if found : bool then
     t ← now;
     let timestamp := strftime_archive t in
     shutil_move REPORT_FILE_MD (archive_path timestamp ".md");;
     shutil_move REPORT_FILE_TXT (archive_path timestamp ".txt")
   else mret tt);;
  cleanup_old_files.

(** Lines 325-340: one round of the loop of [write_section]. *)
Definition write_task (info : projects_info) (t : task) : M unit :=
  try_except
    (task_line ← lift (format_task_line info t);
     file_write REPORT_FILE_MD (task_line ++ nl);;
     file_write REPORT_FILE_TXT (strip_brackets task_line ++ nl))
    (fun e => logger ERROR [Txt "Error writing task to report: "; Exn e]).

(** [write_section], lines 319-344 *)
Definition write_section (info : projects_info) (title : string)
    (tasks : list task) : M unit :=
  match tasks with
  | [] => mret tt
  | _ :: _ =>
      try_except
        (file_write REPORT_FILE_MD ("## " ++ title ++ nl);;
         file_write REPORT_FILE_TXT (title ++ ":" ++ nl);;
         for_each tasks (write_task info);;
         file_write REPORT_FILE_MD nl;;
         file_write REPORT_FILE_TXT nl)
        (fun e =>
           logger ERROR [Txt "Error writing section "; Txt title; Txt ": "; Exn e])
  end.

(** Lines 315-356: what is written once both files are open. *)
Definition write_report (info : projects_info) (b : buckets) : M unit :=
  let '(high_priority, due_today, overdue, no_due_date_count, older_overdue_count) := b in
  t ← now;
  let report_title := "# Task Report (" ++ strftime_title t ++ ")" ++ nl ++ nl in
  file_write REPORT_FILE_MD report_title;;
  file_write REPORT_FILE_TXT report_title;;
  write_section info "High Priority" high_priority;;
  write_section info "Due Today" due_today;;
  write_section info "Overdue (Last 7 Days)" overdue;;
  (if (older_overdue_count =? 0)%nat then mret tt
   else
     file_write REPORT_FILE_MD
       (nl ++ "*Note: " ++ str_of_nat older_overdue_count
           ++ " tasks are overdue for more than 7 days.*" ++ nl);;
     file_write REPORT_FILE_TXT
       (nl ++ "Note: " ++ str_of_nat older_overdue_count
           ++ " tasks are overdue for more than 7 days." ++ nl));;
  (if (no_due_date_count =? 0)%nat then mret tt
   else
     file_write REPORT_FILE_MD
       (nl ++ "*Note: " ++ str_of_nat no_due_date_count ++ " tasks have no Due.*" ++ nl);;
     file_write REPORT_FILE_TXT
       (nl ++ "Note: " ++ str_of_nat no_due_date_count ++ " tasks have no Due." ++ nl)).

Definition generate_report : M unit :=
  try_except
    (b ← get_tasks;
     logger DEBUG [Txt "Now generating report"];;
     info ← json_load PROJECTS_JSON_FILE;
     rotate_and_cleanup;;
     open_w REPORT_FILE_MD;;
     open_w REPORT_FILE_TXT;;
     write_report info b;;
     logger INFO [Txt "Task report generated successfully."])
    (fun e => logger ERROR [Txt "Error generating report: "; Exn e];; raise e).


End Script.

(** ** A model of the task store behind the client

    The store keeps, for each task, the page it serves and the two
    properties the filters read but the script never does.  [matches] is
    the store's reading of a filter: [does_not_equal] holds for a task
    without the property, date comparisons fail for a task without a date. *)

Record entry := {
  entry_page : page;
  entry_priority : option string;
  entry_due : option date
}.

(** The status the store holds is the one the page shows. *)
Definition entry_status (e : entry) : option string :=
  match properties (entry_page e) with
  | Val props =>
      match prop_Status props with
      | Val sp =>
          match status sp with
          | Val so =>
              match status_name so with
              | Val s => Some s
              | _ => None
              end
          | _ => None
          end
      | _ => None
      end
  | _ => None
  end.

Definition status_holds (c : status_condition) (v : option string) : bool :=
  match c with
  | does_not_equal s => negb (bool_decide (v = Some s))
  | equals s => bool_decide (v = Some s)
  end.

Definition date_holds (c : date_condition) (v : option date) : bool :=
  match c, v with
  | is_empty b, None => b
  | is_empty b, Some _ => negb b
  | _, None => false
  | date_equals d, Some x => x =? d
  | on_or_before d, Some x => x <=? d
  | on_or_after d, Some x => d <=? x
  | before d, Some x => x <? d
  end.

Definition property_holds (e : entry) (f : property_filter) : bool :=
  match f with
  | status_filter p c =>
      if String.eqb p "Status" then status_holds c (entry_status e)
      else if String.eqb p "Priority" then status_holds c (entry_priority e)
      else false
  | date_filter p cs =>
      if String.eqb p "Due" then forallb (fun c => date_holds c (entry_due e)) cs
      else false
  end.

Definition matches (f : query_filter) (e : entry) : bool :=
  match f with
  | filter_and fs => forallb (property_holds e) fs
  end.

(** A store that answers every task query, in its own order. *)
Definition store_query (db : list entry) (r : request) : result query_response :=
  match database_id r, filter_arg r with
  | NOTION_TASKS_DB, Some f =>
      Ok {| results := Val (entry_page <$> List.filter (matches f) db) |}
  | NOTION_TASKS_DB, None => Ok {| results := Val (entry_page <$> db) |}
  | NOTION_PROJECTS_DB, _ => Ok {| results := Val [] |}
  end.

Definition no_fault : fault_site -> option exn := fun _ => None.

Definition store_env (c : nat -> datetime) (db : list entry) : env :=
  {| clock := c; query := store_query db; fault := no_fault |}.

(** ** The five buckets, by name *)

Inductive bucket_id : Type :=
  | HighPriority
  | DueToday
  | Overdue7Days
  | NoDueDate
  | OlderOverdue.

Definition all_buckets : list bucket_id :=
  [HighPriority; DueToday; Overdue7Days; NoDueDate; OlderOverdue].

(** The query [get_tasks] sends for a bucket on the day [today]. *)
Definition bucket_request (today : date) (b : bucket_id) : request :=
  match b with
  | HighPriority =>
      tasks_request (high_priority_filter today)
        ["Name"; "Project"; "Due"; "Status"; "Priority"]
  | DueToday => tasks_request (due_today_filter today) detail_properties
  | Overdue7Days => tasks_request (overdue_filter today (today - 7)) detail_properties
  | NoDueDate => tasks_request no_due_date_filter detail_properties
  | OlderOverdue => tasks_request (older_overdue_filter (today - 7)) detail_properties
  end.

(** The component of the returned tuple that belongs to a bucket. *)
Definition bucket_at (b : bucket_id) (r : buckets) : list task + nat :=
  let '(high_priority, due_today, overdue, no_due_date_count, older_overdue_count) := r in
  match b with
  | HighPriority => inl high_priority
  | DueToday => inl due_today
  | Overdue7Days => inl overdue
  | NoDueDate => inr no_due_date_count
  | OlderOverdue => inr older_overdue_count
  end.

Definition empty_bucket (b : bucket_id) : list task + nat :=
  match b with
  | HighPriority | DueToday | Overdue7Days => inl []
  | NoDueDate | OlderOverdue => inr 0%nat
  end.

(** The message of the [except] branch of a bucket. *)
Definition bucket_error (b : bucket_id) (e : exn) : log_record :=
  {| levelname := ERROR;
     message :=
       match b with
       | HighPriority =>
           [Txt "Error fetching "; Txt "high priority"; Txt " tasks: "; Exn e]
       | DueToday =>
           [Txt "Error fetching "; Txt "due today"; Txt " tasks: "; Exn e]
       | Overdue7Days =>
           [Txt "Error fetching "; Txt "overdue"; Txt " tasks: "; Exn e]
       | NoDueDate =>
           [Txt "Error fetching "; Txt "tasks with no due date"; Txt ": "; Exn e]
       | OlderOverdue =>
           [Txt "Error fetching "; Txt "older overdue tasks"; Txt ": "; Exn e]
       end |}.

(** What one answer of the client contributes, read off without the
    script: the pages of the answer, their records, and the bucket. *)
Definition response_pages (r : result query_response) : result (list page) :=
  resp ← r; not_none TypeError (dict_get (results resp) []).

Definition normalized (pages : list page) : list task :=
  omap (fun p => match process_task_body p with
                 | Ok t => Some t
                 | Raise _ => None
                 end) pages.

Definition list_bucket (r : result query_response) : list task :=
  match response_pages r with
  | Ok pages => normalized pages
  | Raise _ => []
  end.

Definition count_bucket (r : result query_response) : nat :=
  match response_pages r with
  | Ok pages => List.length pages
  | Raise _ => 0%nat
  end.

Definition bucket_of_response (b : bucket_id) (r : result query_response)
  : list task + nat :=
  match b with
  | HighPriority | DueToday | Overdue7Days => inl (list_bucket r)
  | NoDueDate | OlderOverdue => inr (count_bucket r)
  end.

(** The tuple that the five answers of [E] give on the day [today]. *)
Definition buckets_of (E : env) (today : date) : buckets :=
  (list_bucket (query E (bucket_request today HighPriority)),
   list_bucket (query E (bucket_request today DueToday)),
   list_bucket (query E (bucket_request today Overdue7Days)),
   count_bucket (query E (bucket_request today NoDueDate)),
   count_bucket (query E (bucket_request today OlderOverdue))).

(** ** Worlds reached by a run, written out *)

(** [w] after more log records and more queries. *)
Definition extend (l : list log_record) (qs : list request) (w : world) : world :=
  {| fs := fs w; log := (log w ++ l)%list; queries := (queries w ++ qs)%list;
     ticks := ticks w; writes := writes w |}.

(** [w] after one successful [f.write(s)] on [p] at the instant [c]. *)
Definition put_text (c : datetime) (p s : string) (w : world) : world :=
  count_write
    (set_fs (fun m => <[p := {| data := Text (file_text m p ++ s); mtime := c |}]> m) w).

Definition info_record (msg : list log_part) : log_record :=
  {| levelname := INFO; message := msg |}.
Definition error_record (msg : list log_part) : log_record :=
  {| levelname := ERROR; message := msg |}.

(** ** Notions used to state the results *)

(** [c] does not occur in [t]. *)
Fixpoint lacks (c : ascii) (t : string) : bool :=
  match t with
  | EmptyString => true
  | String a t' => negb (Ascii.eqb a c) && lacks c t'
  end.

(** What lines 333-334 append to a task line. *)
Definition status_suffix (status : pystr) : string :=
  match status with
  | Some s =>
      if negb (String.eqb s "") && negb (String.eqb s "Unknown")
      then ", Status: " ++ s
      else ""
  | None => ""
  end.

(** The default of the cache lookup on line 327. *)
Definition unknown_project : string := "Unknown Project".

(** A computation that creates no file and changes none. *)
Definition shrinks {A : Type} (m : M A) : Prop :=
  forall w, fs (snd (m w)) ⊆ fs w.

(** "In Due Today, and only there": the record is in the second component
    of the tuple and not in the third. *)
Definition due_today_only (E : env) (w : world) (r : task) : Prop :=
  match fst (get_tasks E w) with
  | Ok (_, due_today, overdue, _, _) => In r due_today /\ ~ In r overdue
  | Raise _ => False
  end.



(** ** Sample data: the morning of 2024-03-01 *)

Definition morning : datetime := mk_datetime 2024 3 1 9 30 0.

Definition steady_clock : nat -> datetime := fun _ => morning.

Definition empty_world : world :=
  {| fs := ∅; log := []; queries := []; ticks := 0; writes := 0 |}.

(** A workspace without tasks and without faults. *)
Definition quiet_env : env :=
  {| clock := steady_clock;
     query := fun _ => Ok {| results := Val [] |};
     fault := no_fault |}.

(** The "due today" query fails, the other four answer. *)
Definition env_due_today_down : env :=
  {| clock := steady_clock;
     query := fun r =>
       match filter_arg r with
       | Some (filter_and [_; date_filter _ [date_equals _]]) => Raise APIResponseError
       | _ => Ok {| results := Val [] |}
       end;
     fault := no_fault |}.

(** The second write to a report file fails. *)
Definition failing_disk_env : env :=
  {| clock := steady_clock;
     query := fun _ => Ok {| results := Val [] |};
     fault := fun s => match s with AtWrite 1 => Some OSError | _ => None end |}.


(** A workspace whose projects database holds [entries]. *)
Definition projects_env (entries : list page) : env :=
  {| clock := steady_clock;
     query := fun r =>
       match database_id r with
       | NOTION_PROJECTS_DB => Ok {| results := Val entries |}
       | NOTION_TASKS_DB => Ok {| results := Val [] |}
       end;
     fault := no_fault |}.

(** A [Name] property with a title, and the one of an untitled page. *)
Definition titled (s : string) : field title_prop :=
  Val {| title := Val [ {| text := Val {| content := Val s |} |} ] |}.

Definition untitled : field title_prop := Val {| title := Val [] |}.

(** A task page as the store serves it. *)
Definition sample_page (pid : string) (name : field title_prop) (url : string)
    (project : list string) (st : string) : page :=
  {| page_id := Val pid;
     page_url := Val url;
     properties :=
       Val {| prop_Name := name;
              prop_Project :=
                Val {| relation := Val ((fun p => {| rel_id := Val p |}) <$> project) |};
              prop_Status := Val {| status := Val {| status_name := Val st |} |} |} |}.

(** A project page. *)
Definition project_page (pid : string) (name : field title_prop) : page :=
  {| page_id := Val pid;
     page_url := Absent;
     properties :=
       Val {| prop_Name := name; prop_Project := Absent; prop_Status := Absent |} |}.

(** An open task due on 2024-03-01, and its record. *)
Definition fix_bug_entry : entry :=
  {| entry_page := sample_page "t1" (titled "Fix bug") "http://x/1" ["p1"] "In progress";
     entry_priority := Some "Low";
     entry_due := Some (mk_date 2024 3 1) |}.

Definition fix_bug_record : task :=
  (Some "Fix bug", Some "http://x/1", Some "p1", Some "In progress").

(** The record and the cache of the rendering example. *)
Definition alpha_cache_task : task :=
  (Some "Fix bug", Some "http://x/1", Some "p1", Some "High").

Definition alpha_info : projects_info :=
  {| generated_at := morning; projects := Val {[ "p1" := Some "Alpha" ]} |}.

(** A task without a project whose own name is the default text. *)
Definition unknown_named_task : task :=
  (Some "Unknown Project", Some "http://x/2", None, Some "Unknown").

Definition cache_file (written : datetime) : file :=
  {| data := Json {| generated_at := written;
                     projects := Val {[ "p1" := Some "Alpha" ]} |};
     mtime := written |}.

Definition report_file (s : string) (written : datetime) : file :=
  {| data := Text s; mtime := written |}.

Definition world_with_cache (written : datetime) : world :=
  {| fs := {[ PROJECTS_JSON_FILE := cache_file written ]};
     log := []; queries := []; ticks := 0; writes := 0 |}.

(** Both report files just opened, nothing else on disk. *)
Definition open_world : world :=
  {| fs := {[ REPORT_FILE_MD := report_file "" morning;
              REPORT_FILE_TXT := report_file "" morning ]};
     log := []; queries := []; ticks := 0; writes := 0 |}.

(** Three archived reports, last written 8 days, 7 days 12 hours and
    6 days before [morning]. *)
Definition archive_world : world :=
  {| fs := {[ "target/tasks_report_2024_02_22.txt" :=
                report_file "# Task Report" (mk_datetime 2024 2 22 9 30 0);
              "target/tasks_report_2024_02_23.md" :=
                report_file "# Task Report" (mk_datetime 2024 2 22 21 30 0);
              "target/tasks_report_2024_02_24.md" :=
                report_file "# Task Report" (mk_datetime 2024 2 24 9 30 0) ]};
     log := []; queries := []; ticks := 0; writes := 0 |}.

(** The cache and the report pair of the evening before [morning]. *)
Definition yesterday_world : world :=
  {| fs := {[ PROJECTS_JSON_FILE := cache_file (mk_datetime 2024 2 29 20 0 0);
              REPORT_FILE_MD := report_file "old rich report" (mk_datetime 2024 2 29 20 0 1);
              REPORT_FILE_TXT := report_file "old plain report" (mk_datetime 2024 2 29 20 0 1) ]};
     log := []; queries := []; ticks := 0; writes := 0 |}.

(** ** Notions for the sweep, the cache and the report files *)

(** The fixed part of the two patterns of [cleanup_old_files], line 58. *)
Definition archive_pattern : string := TARGET_DIR ++ "/tasks_report_".

(** A path that one of the two patterns matches. *)
Definition is_archive (p : string) : bool :=
  glob_match archive_pattern ".md" p || glob_match archive_pattern ".txt" p.

(** The test of line 61 on a file. *)
Definition expired (current_time : datetime) (f : file) : bool :=
  7 <? days (current_time - mtime f).

(** [os.remove] on [p] meets no fault. *)
Definition removable (E : env) (p : string) : bool :=
  bool_decide (fault E (AtRemove p) = None).

(** The body of the inner loop of [cleanup_old_files], lines 60-66, for one
    path. *)
Definition sweep_one (E : env) (current_time : datetime) (file_path : string) : M unit :=
  file_time ← getmtime file_path;
  if 7 <? days (current_time - file_time)
  then
    try_except
      (os_remove E file_path;;
       logger INFO [Txt "Deleted old file: "; Txt file_path])
      (fun e =>
         logger ERROR [Txt "Error deleting file "; Txt file_path;
                       Txt ": "; Exn e])
  else mret tt.

(** The files after a sweep over the paths that [hit] selects: a selected
    file goes when it is expired and removable, every other file stays. *)
Definition swept (E : env) (current_time : datetime) (hit : string -> bool)
    (m : gmap string file) (p : string) : option file :=
  match m !! p with
  | Some f =>
      if hit p && expired current_time f && removable E p then None else Some f
  | None => None
  end.

(** The record of line 66. *)
Definition delete_error (p : string) (e : exn) : log_record :=
  error_record [Txt "Error deleting file "; Txt p; Txt ": "; Exn e].

(** A computation that leaves the file at [p] as it is, or absent. *)
Definition keeps (p : string) {A : Type} (m : M A) : Prop :=
  forall w, fs (snd (m w)) !! p = fs w !! p.

(** The names of the current and the archived reports all start so. *)
Definition is_report_name (p : string) : bool :=
  is_prefix "target/tasks_report" p.

(** A computation that only appends to the text of files and removes none. *)
Definition appends {A : Type} (m : M A) : Prop :=
  forall w p,
    exists s,
      file_text (fs (snd (m w))) p = file_text (fs w) p ++ s
      /\ (is_Some (fs w !! p) -> is_Some (fs (snd (m w)) !! p)).

(** A computation that never raises. *)
Definition succeeds {A : Type} (m : M A) : Prop :=
  forall w, exists a, fst (m w) = Ok a.

(** An entry of the projects database without a [Name] property. *)
Definition nameless (p : page) : bool :=
  match properties p with
  | Val props =>
      match prop_Name props with
      | Absent => true
      | _ => false
      end
  | _ => false
  end.

(** The identifier and the display name of an entry that has both: its
    ["id"], and the text content of the first item of the title of its
    [Name]. *)
Definition entry_pair (p : page) : option (string * string) :=
  match page_id p, properties p with
  | Val k, Val props =>
      match prop_Name props with
      | Val name_prop =>
          match title name_prop with
          | Val (first :: _) =>
              match text first with
              | Val txt =>
                  match content txt with
                  | Val s => Some (k, s)
                  | _ => None
                  end
              | _ => None
              end
          | _ => None
          end
      | _ => None
      end
  | _, _ => None
  end.

(** An entry as the projects database is meant to serve it. *)
Definition well_formed_entry (p : page) : Prop :=
  nameless p = true \/ is_Some (entry_pair p).



(** The lines of a section, each passed through [f] and ended by a newline. *)
Fixpoint lines_text (f : string -> string) (lines : list string) : string :=
  match lines with
  | [] => ""
  | l :: rest => f l ++ nl ++ lines_text f rest
  end.

(** The title of line 315. *)
Definition report_title (t : datetime) : string :=
  "# Task Report (" ++ strftime_title t ++ ")" ++ nl ++ nl.

(** ** More sample data *)

(** The archived report of 2024-02-22 cannot be removed. *)
Definition locked_archive_env : env :=
  {| clock := steady_clock;
     query := fun _ => Ok {| results := Val [] |};
     fault := fun s =>
       match s with
       | AtRemove p =>
           if String.eqb p "target/tasks_report_2024_02_22.txt"
           then Some OSError else None
       | _ => None
       end |}.


(** A report pair last written ten days before [morning]. *)
Definition stale_world : world :=
  {| fs := {[ PROJECTS_JSON_FILE := cache_file (mk_datetime 2024 2 20 20 0 0);
              REPORT_FILE_MD := report_file "old rich report" (mk_datetime 2024 2 20 20 0 1);
              REPORT_FILE_TXT := report_file "old plain report" (mk_datetime 2024 2 20 20 0 1) ]};
     log := []; queries := []; ticks := 0; writes := 0 |}.

(** A rich report without its plain twin. *)
Definition half_pair_world : world :=
  {| fs := {[ PROJECTS_JSON_FILE := cache_file (mk_datetime 2024 2 29 20 0 0);
              REPORT_FILE_MD := report_file "old rich report" (mk_datetime 2024 2 29 20 0 1) ]};
     log := []; queries := []; ticks := 0; writes := 0 |}.

(** A cache document without the ["projects"] key. *)
Definition broken_info : projects_info :=
  {| generated_at := morning; projects := Absent |}.

(** An open task due four days after [morning]. *)
Definition future_entry : entry :=
  {| entry_page := sample_page "t3" (titled "Plan") "http://x/3" [] "In progress";
     entry_priority := Some "High";
     entry_due := Some (mk_date 2024 3 5) |}.

(** A task page without a title. *)
Definition untitled_task_page : page :=
  sample_page "t2" untitled "http://x/2" ["p1"] "In progress".

(** * Results *)

(** ** Worlds reached by [get_tasks] *)

(** Unfold the monad and the calls that never fail. *)
Ltac run :=
  unfold mbind, M_bind, mret, M_ret, try_except, lift, logger,
    databases_query, raise in *;
  cbn [fst snd] in *.

(** [extend] composes, and the log and query steps of the script are
    instances of it. *)
Lemma extend_extend l1 q1 l2 q2 w :
  extend l2 q2 (extend l1 q1 w) = extend (l1 ++ l2) (q1 ++ q2) w.
Proof. unfold extend; cbn. by rewrite !app_assoc. Qed.

Lemma extend_nil w : extend [] [] w = w.
Proof. destruct w; unfold extend; cbn. by rewrite !app_nil_r. Qed.

Lemma add_log_extend r w : add_log r w = extend [r] [] w.
Proof. unfold add_log, extend. by rewrite app_nil_r. Qed.

Lemma add_query_extend r w : add_query r w = extend [] [r] w.
Proof. unfold add_query, extend. by rewrite app_nil_r. Qed.

(** [process_task] never raises: a page gives its record or is dropped,
    and only the log grows. *)
Lemma process_task_run t w :
  exists l, process_task t w =
    (Ok (match process_task_body t with Ok r => Some r | Raise _ => None end),
     extend l [] w).
Proof.
  unfold process_task. run.
  destruct (process_task_body t).
  - exists []. by rewrite extend_nil.
  - eexists. by rewrite add_log_extend.
Qed.

Lemma process_tasks_run pages w :
  exists l, process_tasks pages w = (Ok (normalized pages), extend l [] w).
Proof.
  revert w; induction pages as [|t rest IH]; intros w; cbn [process_tasks].
  - exists []. run. by rewrite extend_nil.
  - run. destruct (process_task_run t w) as [l1 ->].
    destruct (IH (extend l1 [] w)) as [l2 ->].
    exists (l1 ++ l2)%list. rewrite extend_extend. cbn.
    unfold normalized; cbn. by destruct (process_task_body t).
Qed.

(** One list block: the bucket is read off the answer, the request is
    recorded, and a failed query leaves exactly its error in the log. *)
Lemma fetch_tasks_run E f props label w :
  exists l,
    fetch_tasks E [] f props label w =
      (Ok (list_bucket (query E (tasks_request f props))),
       extend l [tasks_request f props] w)
    /\ forall e, query E (tasks_request f props) = Raise e ->
         l = [error_record [Txt "Error fetching "; Txt label; Txt " tasks: "; Exn e]].
Proof.
  unfold fetch_tasks, list_bucket, response_pages. run.
  destruct (query E (tasks_request f props)) as [resp|e]; cbn.
  - destruct (results resp) as [| |pages]; cbn.
    + run. eexists. split; [|discriminate].
      rewrite add_query_extend, add_log_extend, !extend_extend. reflexivity.
    + eexists. split; [|discriminate].
      rewrite add_query_extend, add_log_extend, !extend_extend. reflexivity.
    + destruct (process_tasks_run pages (add_query (tasks_request f props) w)) as [l ->].
      eexists. split; [|discriminate].
      rewrite add_query_extend, add_log_extend, !extend_extend. reflexivity.
  - eexists. split.
    + rewrite add_query_extend, add_log_extend, !extend_extend. reflexivity.
    + intros e' [= <-]. reflexivity.
Qed.

(** The same for a count block. *)
Lemma fetch_count_run E f found_label error_label w :
  exists l,
    fetch_count E 0%nat f found_label error_label w =
      (Ok (count_bucket (query E (tasks_request f detail_properties))),
       extend l [tasks_request f detail_properties] w)
    /\ forall e, query E (tasks_request f detail_properties) = Raise e ->
         l = [error_record [Txt "Error fetching "; Txt error_label; Txt ": "; Exn e]].
Proof.
  unfold fetch_count, count_bucket, response_pages. run.
  destruct (query E (tasks_request f detail_properties)) as [resp|e]; cbn.
  - destruct (results resp) as [| |pages]; cbn;
      (eexists; split; [|discriminate]);
      rewrite add_query_extend, add_log_extend, !extend_extend; reflexivity.
  - eexists. split.
    + rewrite add_query_extend, add_log_extend, !extend_extend. reflexivity.
    + intros e' [= <-]. reflexivity.
Qed.

Lemma tick_add_log r w : tick (add_log r w) = extend [r] [] (tick w).
Proof. unfold tick, add_log, extend; cbn. by rewrite app_nil_r. Qed.

(** The whole of [get_tasks] when the clock can be read. *)
Lemma get_tasks_run E w :
  fault E (AtNow (ticks w)) = None ->
  let today := date_of (clock E (ticks w)) in
  exists l,
    get_tasks E w =
      (Ok (buckets_of E today),
       extend l (bucket_request today <$> all_buckets) (tick w))
    /\ forall b e, query E (bucket_request today b) = Raise e ->
         In (bucket_error b e) l.
Proof.
  intros Hclock today. unfold get_tasks. run. unfold now.
  cbn [ticks add_log]. rewrite Hclock.
  fold today. rewrite tick_add_log.
  set (w0 := tick w).
  match goal with |- context [fetch_tasks E [] (high_priority_filter today) ?ps _ ?w1] =>
    destruct (fetch_tasks_run E (high_priority_filter today) ps "high priority" w1)
      as (l1 & -> & H1) end.
  rewrite extend_extend.
  match goal with |- context [fetch_tasks E [] (due_today_filter today) _ _ ?w1] =>
    destruct (fetch_tasks_run E (due_today_filter today) detail_properties "due today" w1)
      as (l2 & -> & H2) end.
  rewrite extend_extend.
  match goal with |- context [fetch_tasks E [] (overdue_filter today (today - 7)) _ _ ?w1] =>
    destruct (fetch_tasks_run E (overdue_filter today (today - 7)) detail_properties "overdue" w1)
      as (l3 & -> & H3) end.
  rewrite extend_extend.
  match goal with |- context [fetch_count E 0%nat no_due_date_filter ?a ?b ?w1] =>
    destruct (fetch_count_run E no_due_date_filter a b w1)
      as (l4 & -> & H4) end.
  rewrite extend_extend.
  match goal with |- context [fetch_count E 0%nat (older_overdue_filter (today - 7)) ?a ?b ?w1] =>
    destruct (fetch_count_run E (older_overdue_filter (today - 7)) a b w1)
      as (l5 & -> & H5) end.
  rewrite extend_extend.
  rewrite !add_log_extend, !extend_extend.
  eexists. split; [reflexivity|].
  intros b e Hq. rewrite !in_app_iff.
  destruct b; cbn [bucket_request] in Hq.
  - rewrite (H1 e Hq). cbn. tauto.
  - rewrite (H2 e Hq). cbn. tauto.
  - rewrite (H3 e Hq). cbn. tauto.
  - rewrite (H4 e Hq). cbn. tauto.
  - rewrite (H5 e Hq). cbn. tauto.
Qed.

(** And when it cannot: the outer handler, lines 291-293. *)
Lemma get_tasks_clock_fault E w e :
  fault E (AtNow (ticks w)) = Some e ->
  get_tasks E w =
    (Ok ([], [], [], 0%nat, 0%nat),
     extend [info_record [Txt "Fetching tasks from Notion API..."];
             error_record [Txt "Unexpected error in get_tasks: "; Exn e]]
       [] (tick w)).
Proof.
  intros Hclock. unfold get_tasks. run. unfold now.
  cbn [ticks add_log]. rewrite Hclock.
  by rewrite tick_add_log, add_log_extend, extend_extend.
Qed.

(** Claim C5.  When the query of one bucket fails, [get_tasks] still returns:
    that bucket has its initial value (an empty list or zero), the error is
    logged, all five queries have been sent in order, and every bucket is
    what its own answer gives, whatever the other answers were. *)
Theorem get_tasks_isolates_query_failure E w b e :
  fault E (AtNow (ticks w)) = None ->
  query E (bucket_request (date_of (clock E (ticks w))) b) = Raise e ->
  exists r w',
    get_tasks E w = (Ok r, w')
    /\ bucket_at b r = empty_bucket b
    /\ In (bucket_error b e) (log w')
    /\ queries w' =
         (queries w ++ (bucket_request (date_of (clock E (ticks w))) <$> all_buckets))%list
    /\ forall b',
         bucket_at b' r =
           bucket_of_response b' (query E (bucket_request (date_of (clock E (ticks w))) b')).
Proof.
  intros Hclock Hq.
  destruct (get_tasks_run E w Hclock) as (l & Hrun & Hlog).
  eexists _, _. split; [exact Hrun|].
  split; [|split; [|split]].
  - unfold buckets_of.
    destruct b; cbn [bucket_at empty_bucket]; f_equal;
      unfold list_bucket, count_bucket, response_pages; by rewrite Hq.
  - cbn. apply in_or_app. right. by apply Hlog.
  - reflexivity.
  - intros []; reflexivity.
Qed.

(** The "due today" query fails on the sample morning. *)
Lemma get_tasks_isolates_query_failure_witness :
  exists r w',
    get_tasks env_due_today_down empty_world = (Ok r, w')
    /\ bucket_at DueToday r = empty_bucket DueToday
    /\ In (bucket_error DueToday APIResponseError) (log w')
    /\ queries w' =
         (queries empty_world ++
            (bucket_request (date_of (clock env_due_today_down (ticks empty_world)))
               <$> all_buckets))%list
    /\ forall b',
         bucket_at b' r =
           bucket_of_response b'
             (query env_due_today_down
                (bucket_request (date_of (clock env_due_today_down (ticks empty_world))) b')).
Proof.
  apply (get_tasks_isolates_query_failure env_due_today_down empty_world
           DueToday APIResponseError); reflexivity.
Defined.



(** ** The store model and the five filters *)

(** Which of the five filters an open task due today matches. *)
Lemma due_today_matches e today :
  entry_due e = Some today ->
  entry_status e <> Some "Done" ->
  matches (due_today_filter today) e = true
  /\ matches (overdue_filter today (today - 7)) e = true
  /\ matches no_due_date_filter e = false
  /\ matches (older_overdue_filter (today - 7)) e = false
  /\ (entry_priority e = Some "High" -> matches (high_priority_filter today) e = true).
Proof.
  intros Hdue Hst.
  assert (Hnd : property_holds e status_not_done = true).
  { cbn. rewrite bool_decide_eq_false_2; done. }
  assert (Hdate : forall cs,
            property_holds e (date_filter "Due" cs)
            = forallb (fun c => date_holds c (Some today)) cs).
  { intros cs. cbn. by rewrite Hdue. }
  unfold matches, due_today_filter, overdue_filter, no_due_date_filter,
    older_overdue_filter, high_priority_filter.
  cbn [forallb]. rewrite Hnd, !Hdate. cbn [forallb date_holds andb negb].
  rewrite Z.eqb_refl, Z.leb_refl.
  replace (today - 7 <=? today) with true by (symmetry; apply Z.leb_le; lia).
  replace (today <? today - 7) with false by (symmetry; apply Z.ltb_ge; lia).
  repeat split; try reflexivity.
  intros Hp. cbn. rewrite Hp. reflexivity.
Qed.

(** A page of the answer that normalises is in the bucket. *)
Lemma normalized_In (pages : list page) p r :
  In p pages -> process_task_body p = Ok r -> In r (normalized pages).
Proof.
  intros Hin Hp. unfold normalized.
  apply list_elem_of_In, list_elem_of_omap. exists p.
  split; [by apply list_elem_of_In|]. by rewrite Hp.
Qed.

Lemma store_list_bucket_In c db f props e r :
  In e db -> matches f e = true -> process_task_body (entry_page e) = Ok r ->
  In r (list_bucket (query (store_env c db) (tasks_request f props))).
Proof.
  intros Hin Hm Hp. cbn. unfold list_bucket. cbn.
  apply normalized_In with (entry_page e); [|done].
  apply in_map, filter_In. done.
Qed.

Lemma store_count_bucket c db f :
  count_bucket (query (store_env c db) (tasks_request f detail_properties))
  = List.length (List.filter (matches f) db).
Proof. cbn. unfold count_bucket. cbn. by rewrite length_fmap. Qed.

(** Claim C1, amended.  An open task due today whose page normalises to a
    record [r] is listed in Due Today and also in Overdue (Last 7 Days),
    whose filter runs up to today included; it is in High Priority as well
    when its priority is High.  It matches neither count filter, and the two
    counts are the numbers of tasks that do. *)
Theorem due_today_task_is_listed_twice c db w e r :
  In e db ->
  entry_due e = Some (date_of (c (ticks w))) ->
  entry_status e <> Some "Done" ->
  process_task_body (entry_page e) = Ok r ->
  exists high_priority due_today overdue no_due_date_count older_overdue_count w',
    get_tasks (store_env c db) w =
      (Ok (high_priority, due_today, overdue, no_due_date_count, older_overdue_count), w')
    /\ In r due_today
    /\ In r overdue
    /\ (entry_priority e = Some "High" -> In r high_priority)
    /\ matches no_due_date_filter e = false
    /\ no_due_date_count = List.length (List.filter (matches no_due_date_filter) db)
    /\ matches (older_overdue_filter (date_of (c (ticks w)) - 7)) e = false
    /\ older_overdue_count =
         List.length (List.filter (matches (older_overdue_filter (date_of (c (ticks w)) - 7))) db).
Proof.
  intros Hin Hdue Hst Hp.
  destruct (due_today_matches e _ Hdue Hst) as (Hdt & Hod & Hnd & Hoo & Hhp).
  destruct (get_tasks_run (store_env c db) w eq_refl) as (l & Hrun & _).
  cbn [clock store_env] in Hrun. unfold buckets_of in Hrun.
  eexists _, _, _, _, _, _. split; [exact Hrun|].
  cbn [bucket_request].
  repeat split.
  - by apply store_list_bucket_In with e.
  - by apply store_list_bucket_In with e.
  - intros Hprio. apply store_list_bucket_In with e; auto.
  - exact Hnd.
  - apply store_count_bucket.
  - exact Hoo.
  - apply store_count_bucket.
Qed.

(** The sample task, due on the sample morning. *)
Lemma due_today_task_is_listed_twice_witness :
  exists high_priority due_today overdue no_due_date_count older_overdue_count w',
    get_tasks (store_env steady_clock [fix_bug_entry]) empty_world =
      (Ok (high_priority, due_today, overdue, no_due_date_count, older_overdue_count), w')
    /\ In fix_bug_record due_today
    /\ In fix_bug_record overdue
    /\ (entry_priority fix_bug_entry = Some "High" -> In fix_bug_record high_priority)
    /\ matches no_due_date_filter fix_bug_entry = false
    /\ no_due_date_count =
         List.length (List.filter (matches no_due_date_filter) [fix_bug_entry])
    /\ matches (older_overdue_filter (date_of (steady_clock (ticks empty_world)) - 7))
         fix_bug_entry = false
    /\ older_overdue_count =
         List.length
           (List.filter
              (matches (older_overdue_filter (date_of (steady_clock (ticks empty_world)) - 7)))
              [fix_bug_entry]).
Proof.
  apply (due_today_task_is_listed_twice steady_clock [fix_bug_entry] empty_world
           fix_bug_entry fix_bug_record).
  - left; reflexivity.
  - reflexivity.
  - discriminate.
  - reflexivity.
Defined.

(** Claim C1 as stated fails: the sample task is due today and open, and its
    record is in the overdue bucket too. *)
Lemma due_today_task_also_overdue :
  entry_due fix_bug_entry = Some (date_of (steady_clock 0))
  /\ entry_status fix_bug_entry <> Some "Done"
  /\ process_task_body (entry_page fix_bug_entry) = Ok fix_bug_record
  /\ fst (get_tasks (store_env steady_clock [fix_bug_entry]) empty_world)
     = Ok ([], [fix_bug_record], [fix_bug_record], 0%nat, 0%nat)
  /\ ~ due_today_only (store_env steady_clock [fix_bug_entry]) empty_world fix_bug_record.
Proof.
  split; [reflexivity|]. split; [discriminate|]. split; [reflexivity|].
  assert (Hrun : fst (get_tasks (store_env steady_clock [fix_bug_entry]) empty_world)
                 = Ok ([], [fix_bug_record], [fix_bug_record], 0%nat, 0%nat))
    by (vm_compute; reflexivity).
  split; [exact Hrun|].
  unfold due_today_only. rewrite Hrun. intros [_ Hout]. apply Hout. by left.
Qed.

(** ** Strings *)

(** Appending, and removing a character from an appended text. *)
Lemma append_cons a s t : String a s ++ t = String a (s ++ t).
Proof. reflexivity. Qed.

Lemma append_nil_r s : s ++ "" = s.
Proof. induction s as [|a s IH]; [reflexivity|]. by rewrite append_cons, IH. Qed.

Lemma append_assoc (s t u : string) : (s ++ t) ++ u = s ++ (t ++ u).
Proof. induction s as [|a s IH]; [reflexivity|]. by rewrite !append_cons, IH. Qed.



Lemma is_prefix_nil_l s : is_prefix "" s = true.
Proof. by destruct s. Qed.

Lemma contains_nil_l s : contains "" s = true.
Proof. destruct s; reflexivity. Qed.

Lemma contains_cons t a s :
  contains t (String a s) = is_prefix t (String a s) || contains t s.
Proof. reflexivity. Qed.







(** ** Task lines *)









(** ** Writing to the report files *)

(** A write without fault appends to its file and leaves the others. *)
Lemma file_write_run E p s w :
  fault E (AtWrite (writes w)) = None ->
  file_write E p s w = (Ok tt, put_text (clock E (ticks w)) p s w).
Proof. intros Hw. unfold file_write. by rewrite Hw. Qed.

Lemma file_text_put_text_eq c p s w :
  file_text (fs (put_text c p s w)) p = file_text (fs w) p ++ s.
Proof. unfold put_text, file_text at 1. cbn. by rewrite lookup_insert_eq. Qed.

Lemma file_text_put_text_ne c p q s w :
  p <> q -> file_text (fs (put_text c q s w)) p = file_text (fs w) p.
Proof.
  intros Hpq. unfold put_text, file_text at 1. cbn.
  by rewrite lookup_insert_ne.
Qed.

Lemma ticks_put_text c p s w : ticks (put_text c p s w) = ticks w.
Proof. reflexivity. Qed.

Lemma report_files_differ : REPORT_FILE_MD <> REPORT_FILE_TXT.
Proof. discriminate. Qed.

(** One task: its line to the rich file, the stripped line to the plain
    file. *)
Lemma write_task_run E info t line w :
  format_task_line info t = Ok line ->
  (forall n, fault E (AtWrite n) = None) ->
  let c := clock E (ticks w) in
  write_task E info t w =
    (Ok tt,
     put_text c REPORT_FILE_TXT (strip_brackets line ++ nl)
       (put_text c REPORT_FILE_MD (line ++ nl) w)).
Proof.
  intros Hline Hw c. unfold write_task. run. rewrite Hline.
  rewrite file_write_run by apply Hw.
  rewrite file_write_run by apply Hw.
  reflexivity.
Qed.

(** Claim C2, amended.  Under any cache that maps "p1" to "Alpha", the record
    renders to the rich line of the claim, and the plain line is that line
    with every bracket removed, which leaves three blanks after the dash:
    "-   Fix bug(http://x/1) (Project: Alpha), Status: High".  A section
    holding this one record appends heading, line and blank line to each
    file. *)
Theorem fix_bug_lines info cache :
  projects info = Val cache ->
  cache !! "p1" = Some (Some "Alpha") ->
  let rich := "- [ ] [Fix bug](http://x/1) (Project: Alpha), Status: High" in
  let plain := "-   Fix bug(http://x/1) (Project: Alpha), Status: High" in
  format_task_line info alpha_cache_task = Ok rich
  /\ strip_brackets rich = plain
  /\ forall E title w,
       (forall n, fault E (AtWrite n) = None) ->
       exists w',
         write_section E info title [alpha_cache_task] w = (Ok tt, w')
         /\ file_text (fs w') REPORT_FILE_MD =
              file_text (fs w) REPORT_FILE_MD
                ++ "## " ++ title ++ nl ++ rich ++ nl ++ nl
         /\ file_text (fs w') REPORT_FILE_TXT =
              file_text (fs w) REPORT_FILE_TXT
                ++ title ++ ":" ++ nl ++ plain ++ nl ++ nl.
Proof.
  intros Hproj Hp1 rich plain.
  assert (Hline : format_task_line info alpha_cache_task = Ok rich).
  { unfold format_task_line, alpha_cache_task. rewrite Hproj. cbn.
    rewrite Hp1. reflexivity. }
  split; [exact Hline|]. split; [reflexivity|].
  intros E title w Hw.
  unfold write_section. run. cbn [for_each]. run.
  rewrite file_write_run by apply Hw.
  rewrite file_write_run by apply Hw.
  rewrite (write_task_run E info _ rich) by done.
  rewrite file_write_run by apply Hw.
  rewrite file_write_run by apply Hw.
  eexists. split; [reflexivity|].
  pose proof report_files_differ as Hne.
  split.
  - rewrite file_text_put_text_ne, file_text_put_text_eq by done.
    rewrite file_text_put_text_ne, file_text_put_text_eq by done.
    rewrite file_text_put_text_ne, file_text_put_text_eq by done.
    by rewrite !append_assoc.
  - rewrite file_text_put_text_eq, file_text_put_text_ne by done.
    rewrite file_text_put_text_eq, file_text_put_text_ne by done.
    rewrite file_text_put_text_eq, file_text_put_text_ne by done.
    by rewrite !append_assoc.
Qed.

(** The section "Due Today" written to two freshly opened files. *)
Lemma fix_bug_lines_witness :
  format_task_line alpha_info alpha_cache_task
  = Ok "- [ ] [Fix bug](http://x/1) (Project: Alpha), Status: High"
  /\ strip_brackets "- [ ] [Fix bug](http://x/1) (Project: Alpha), Status: High"
     = "-   Fix bug(http://x/1) (Project: Alpha), Status: High"
  /\ exists w',
       write_section quiet_env alpha_info "Due Today" [alpha_cache_task] open_world
       = (Ok tt, w')
       /\ file_text (fs w') REPORT_FILE_MD =
            file_text (fs open_world) REPORT_FILE_MD
              ++ "## " ++ "Due Today" ++ nl
              ++ "- [ ] [Fix bug](http://x/1) (Project: Alpha), Status: High" ++ nl ++ nl
       /\ file_text (fs w') REPORT_FILE_TXT =
            file_text (fs open_world) REPORT_FILE_TXT
              ++ "Due Today" ++ ":" ++ nl
              ++ "-   Fix bug(http://x/1) (Project: Alpha), Status: High" ++ nl ++ nl.
Proof.
  destruct (fix_bug_lines alpha_info {[ "p1" := Some "Alpha" ]} eq_refl eq_refl)
    as (Hrich & Hplain & Hfiles).
  split; [exact Hrich|]. split; [exact Hplain|].
  apply (Hfiles quiet_env "Due Today" open_world). intros n. reflexivity.
Defined.

(** Claim C2 as stated fails: the plain line written is not the one-blank
    line of the claim. *)
Lemma fix_bug_plain_line_keeps_blanks :
  format_task_line alpha_info alpha_cache_task
  = Ok "- [ ] [Fix bug](http://x/1) (Project: Alpha), Status: High"
  /\ file_text
       (fs (snd (write_section quiet_env alpha_info "Due Today" [alpha_cache_task] open_world)))
       REPORT_FILE_TXT
     = "Due Today:" ++ nl
         ++ "-   Fix bug(http://x/1) (Project: Alpha), Status: High" ++ nl ++ nl
  /\ strip_brackets "- [ ] [Fix bug](http://x/1) (Project: Alpha), Status: High"
     <> "- Fix bug(http://x/1) (Project: Alpha), Status: High".
Proof.
  split; [vm_compute; reflexivity|]. split; [vm_compute; reflexivity|].
  vm_compute. discriminate.
Qed.

(** ** The project cache *)

(** The early return of lines 70-74. *)
Lemma refresh_fresh E w f :
  fs w !! PROJECTS_JSON_FILE = Some f ->
  fault E (AtNow (ticks w)) = None ->
  clock E (ticks w) - mtime f < timedelta_hours 24 ->
  refresh_projects_info E w =
    (Ok tt, extend [info_record [Txt "Project info is up to date."]] [] (tick w)).
Proof.
  intros Hf Hclock Hage. unfold refresh_projects_info.
  unfold mbind at 1, M_bind at 1. unfold path_exists.
  rewrite bool_decide_eq_true_2 by eauto.
  unfold mbind at 1, M_bind at 1.
  unfold mbind at 1, M_bind at 1. unfold getmtime at 1. rewrite Hf.
  unfold mbind at 1, M_bind at 1. unfold now at 1. rewrite Hclock.
  unfold mret at 1, M_ret at 1.
  replace (clock E (ticks w) - mtime f <? timedelta_hours 24) with true
    by (symmetry; by apply Z.ltb_lt).
  unfold logger. by rewrite add_log_extend.
Qed.

(** Lines 76-90 send one query, whatever happens afterwards. *)
Lemma refresh_queries_after_fetch E w0 :
  queries
    (snd ((logger INFO [Txt "Fetching projects from Notion API..."];;
           projects_data ← databases_query E projects_request;
           stamp ← now E;
           entries ← lift (not_none TypeError (dict_get (results projects_data) []));
           names ← lift (project_items entries ∅);
           json_dump E PROJECTS_JSON_FILE
             {| generated_at := stamp; projects := Val names |};;
           logger INFO [Txt "Projects info refreshed."]) w0))
  = (queries w0 ++ [projects_request])%list.
Proof.
  unfold json_dump. run. unfold now, open_w, dump_document. cbn.
  destruct (query E projects_request) as [resp|e]; [|reflexivity].
  destruct (fault E (AtNow _)); [reflexivity|].
  destruct (not_none _ _) as [entries|e]; [|reflexivity].
  destruct (project_items _ _) as [names|e]; [|reflexivity].
  by destruct (fault E (AtDump _)).
Qed.

Lemma refresh_stale E w f :
  fs w !! PROJECTS_JSON_FILE = Some f ->
  fault E (AtNow (ticks w)) = None ->
  timedelta_hours 24 <= clock E (ticks w) - mtime f ->
  queries (snd (refresh_projects_info E w)) = (queries w ++ [projects_request])%list.
Proof.
  intros Hf Hclock Hage. unfold refresh_projects_info.
  unfold mbind at 1, M_bind at 1. unfold path_exists.
  rewrite bool_decide_eq_true_2 by eauto.
  unfold mbind at 1, M_bind at 1.
  unfold mbind at 1, M_bind at 1. unfold getmtime at 1. rewrite Hf.
  unfold mbind at 1, M_bind at 1. unfold now at 1. rewrite Hclock.
  unfold mret at 1, M_ret at 1.
  replace (clock E (ticks w) - mtime f <? timedelta_hours 24) with false
    by (symmetry; by apply Z.ltb_ge).
  by rewrite refresh_queries_after_fetch.
Qed.

Lemma refresh_missing E w :
  fs w !! PROJECTS_JSON_FILE = None ->
  queries (snd (refresh_projects_info E w)) = (queries w ++ [projects_request])%list.
Proof.
  intros Hf. unfold refresh_projects_info.
  unfold mbind at 1, M_bind at 1. unfold path_exists.
  rewrite bool_decide_eq_false_2 by (rewrite Hf; by intros [? ?]).
  unfold mbind at 1, M_bind at 1. unfold mret at 1, M_ret at 1.
  by rewrite refresh_queries_after_fetch.
Qed.

(** Claim C3.  With a cache file younger than 24 hours, the refresh returns
    without sending a query and leaves every file as it was; with a cache
    file of 24 hours or more, or with none, it sends the projects query. *)
Theorem refresh_respects_freshness_window :
  (forall E w f,
     fs w !! PROJECTS_JSON_FILE = Some f ->
     fault E (AtNow (ticks w)) = None ->
     clock E (ticks w) - mtime f < timedelta_hours 24 ->
     exists w',
       refresh_projects_info E w = (Ok tt, w')
       /\ fs w' = fs w
       /\ queries w' = queries w)
  /\ (forall E w f,
        fs w !! PROJECTS_JSON_FILE = Some f ->
        fault E (AtNow (ticks w)) = None ->
        timedelta_hours 24 <= clock E (ticks w) - mtime f ->
        queries (snd (refresh_projects_info E w))
        = (queries w ++ [projects_request])%list)
  /\ (forall E w,
        fs w !! PROJECTS_JSON_FILE = None ->
        queries (snd (refresh_projects_info E w))
        = (queries w ++ [projects_request])%list).
Proof.
  split; [|split].
  - intros E w f Hf Hclock Hage. rewrite (refresh_fresh E w f) by done.
    eexists. split; [reflexivity|]. cbn. by rewrite app_nil_r.
  - apply refresh_stale.
  - apply refresh_missing.
Qed.

(** Caches written 23h59m and 24h01m before the sample morning, and no
    cache. *)
Lemma refresh_respects_freshness_window_witness :
  (exists w',
     refresh_projects_info (projects_env [])
       (world_with_cache (mk_datetime 2024 2 29 9 31 0)) = (Ok tt, w')
     /\ fs w' = fs (world_with_cache (mk_datetime 2024 2 29 9 31 0))
     /\ queries w' = queries (world_with_cache (mk_datetime 2024 2 29 9 31 0)))
  /\ queries (snd (refresh_projects_info (projects_env [])
                     (world_with_cache (mk_datetime 2024 2 29 9 29 0))))
     = (queries (world_with_cache (mk_datetime 2024 2 29 9 29 0)) ++ [projects_request])%list
  /\ queries (snd (refresh_projects_info (projects_env []) empty_world))
     = (queries empty_world ++ [projects_request])%list.
Proof.
  destruct refresh_respects_freshness_window as (Hfresh & Hstale & Hmissing).
  split; [|split].
  - apply (Hfresh (projects_env []) (world_with_cache (mk_datetime 2024 2 29 9 31 0))
             (cache_file (mk_datetime 2024 2 29 9 31 0))); reflexivity.
  - apply (Hstale (projects_env []) (world_with_cache (mk_datetime 2024 2 29 9 29 0))
             (cache_file (mk_datetime 2024 2 29 9 29 0))); [reflexivity|reflexivity|].
    vm_compute. discriminate.
  - apply (Hmissing (projects_env []) empty_world). reflexivity.
Defined.

(** Claim C6 at an untitled project.  An entry without a [Name] property is
    skipped and a titled one gives its pair, but an entry whose [Name] has
    an empty title raises [IndexError]: the refresh of the three entries
    fails after the query and writes no cache. *)
Theorem refresh_fails_on_untitled_project :
  project_item (project_page "p0" Absent) = Ok None
  /\ project_item (project_page "p1" (titled "Alpha")) = Ok (Some ("p1", Some "Alpha"))
  /\ project_item (project_page "p2" untitled) = Raise IndexError
  /\ refresh_projects_info
       (projects_env [project_page "p0" Absent;
                      project_page "p1" (titled "Alpha");
                      project_page "p2" untitled])
       empty_world
     = (Raise IndexError,
        {| fs := ∅;
           log := [info_record [Txt "Fetching projects from Notion API..."]];
           queries := [projects_request]; ticks := 1; writes := 0 |}).
Proof. repeat split; vm_compute; reflexivity. Qed.

(** ** Rotation and cleanup *)

(** [shrinks] is kept by the monad, by [try] and by loops, and holds for
    every call that [cleanup_old_files] makes. *)
Lemma shrinks_ret {A : Type} (a : A) : shrinks (mret a).
Proof. intros w. reflexivity. Qed.

Lemma shrinks_bind {A B : Type} (m : M A) (k : A -> M B) :
  shrinks m -> (forall a, shrinks (k a)) -> shrinks (m ≫= k).
Proof.
  intros Hm Hk w. unfold mbind, M_bind. specialize (Hm w).
  destruct (m w) as [[a|e] w1]; cbn in *; [|done].
  etrans; [apply Hk|done].
Qed.

Lemma shrinks_try {A : Type} (m : M A) (h : exn -> M A) :
  shrinks m -> (forall e, shrinks (h e)) -> shrinks (try_except m h).
Proof.
  intros Hm Hh w. unfold try_except. specialize (Hm w).
  destruct (m w) as [[a|e] w1]; cbn in *; [done|].
  etrans; [apply Hh|done].
Qed.

Lemma shrinks_for_each {A : Type} (l : list A) (body : A -> M unit) :
  (forall x, shrinks (body x)) -> shrinks (for_each l body).
Proof.
  intros Hbody. induction l as [|x l IH]; cbn [for_each].
  - apply shrinks_ret.
  - apply shrinks_bind; [apply Hbody|]. intros _. apply IH.
Qed.

Lemma shrinks_now E : shrinks (now E).
Proof. intros w. unfold now. by destruct (fault E _). Qed.

Lemma shrinks_logger l msg : shrinks (logger l msg).
Proof. intros w. reflexivity. Qed.

Lemma shrinks_glob before after : shrinks (glob before after).
Proof. intros w. reflexivity. Qed.

Lemma shrinks_getmtime p : shrinks (getmtime p).
Proof. intros w. unfold getmtime. by destruct (fs w !! p). Qed.

Lemma shrinks_os_remove E p : shrinks (os_remove E p).
Proof.
  intros w. unfold os_remove. destruct (fault E _); [done|].
  destruct (fs w !! p); [|done]. cbn. apply delete_subseteq.
Qed.

Lemma shrinks_cleanup_old_files E : shrinks (cleanup_old_files E).
Proof.
  unfold cleanup_old_files.
  apply shrinks_bind; [apply shrinks_now|]. intros current_time.
  apply shrinks_for_each. intros ext.
  apply shrinks_bind; [apply shrinks_glob|]. intros paths.
  apply shrinks_for_each. intros file_path.
  apply shrinks_bind; [apply shrinks_getmtime|]. intros file_time.
  destruct (7 <? days (current_time - file_time)); [|apply shrinks_ret].
  apply shrinks_try.
  - apply shrinks_bind; [apply shrinks_os_remove|]. intros _. apply shrinks_logger.
  - intros e. apply shrinks_logger.
Qed.

(** The test of line 61 holds from 8 full days on. *)
Lemma days_exceeds_seven td : 7 < days td <-> timedelta_days 8 <= td.
Proof.
  unfold days, timedelta_days.
  assert (HD : 0 < usec_per_day) by reflexivity.
  split; intros H.
  - destruct (Z_lt_le_dec td (8 * usec_per_day)) as [Hlt|Hle]; [|done].
    apply (Z.div_lt_upper_bound td usec_per_day 8 HD) in Hlt; lia.
  - apply Z.lt_le_trans with 8; [lia|].
    apply Z.div_le_lower_bound; lia.
Qed.

Example strftime_archive_morning : strftime_archive morning = "2024_03_01".
Proof. reflexivity. Qed.

(** Claim C7 at a report last written 7 days and 12 hours ago.  It is more
    than 7 days old, yet [.days] of its age is 7 and the cleanup keeps it;
    the report of 8 days is deleted and the one of 6 days is kept. *)
Theorem cleanup_keeps_report_older_than_seven_days :
  timedelta_days 7 < morning - mk_datetime 2024 2 22 21 30 0
  /\ days (morning - mk_datetime 2024 2 22 21 30 0) = 7
  /\ cleanup_old_files quiet_env archive_world
     = (Ok tt,
        {| fs := {[ "target/tasks_report_2024_02_23.md" :=
                      report_file "# Task Report" (mk_datetime 2024 2 22 21 30 0);
                    "target/tasks_report_2024_02_24.md" :=
                      report_file "# Task Report" (mk_datetime 2024 2 24 9 30 0) ]};
           log := [info_record [Txt "Deleted old file: ";
                                Txt "target/tasks_report_2024_02_22.txt"]];
           queries := []; ticks := 1; writes := 0 |}).
Proof.
  split; [reflexivity|]. split; [reflexivity|]. vm_compute. reflexivity.
Qed.

(** An archive name is never the name of a current report. *)
Lemma archive_is_not_current timestamp ext :
  archive_path timestamp ext <> REPORT_FILE_MD
  /\ archive_path timestamp ext <> REPORT_FILE_TXT.
Proof. split; discriminate. Qed.

(** Without a current rich report, lines 306-309 are skipped. *)
Lemma rotate_without_current E w :
  fs w !! REPORT_FILE_MD = None ->
  rotate_and_cleanup E w = cleanup_old_files E w.
Proof.
  intros Hmd. unfold rotate_and_cleanup.
  unfold mbind at 1, M_bind at 1. unfold path_exists.
  rewrite bool_decide_eq_false_2 by (rewrite Hmd; by intros [? ?]).
  reflexivity.
Qed.

(** A completed rotation leaves no current rich report. *)
Lemma rotate_removes_current E w w1 :
  rotate_and_cleanup E w = (Ok tt, w1) ->
  fs w1 !! REPORT_FILE_MD = None.
Proof.
  destruct (fs w !! REPORT_FILE_MD) as [f|] eqn:Hmd.
  - unfold rotate_and_cleanup.
    unfold mbind at 1, M_bind at 1. unfold path_exists.
    rewrite bool_decide_eq_true_2 by eauto.
    unfold mbind at 1, M_bind at 1.
    unfold mbind at 1, M_bind at 1. unfold now at 1.
    destruct (fault E (AtNow (ticks w))); [done|].
    unfold mbind at 1, M_bind at 1. unfold shutil_move at 1.
    cbn [fs tick]. rewrite Hmd.
    unfold shutil_move at 1. cbn [fs set_fs].
    set (ts := strftime_archive (clock E (ticks w))).
    destruct (archive_is_not_current ts ".md") as [Hmd1 Hmd2].
    destruct (archive_is_not_current ts ".txt") as [Htxt1 Htxt2].
    destruct (_ !! REPORT_FILE_TXT) as [g|] eqn:Htxt; [|done].
    match goal with |- cleanup_old_files E ?w3 = _ -> _ =>
      intros Hrun; pose proof (shrinks_cleanup_old_files E w3) as Hsub end.
    rewrite Hrun in Hsub. cbn [snd fs set_fs] in Hsub.
    eapply lookup_weaken_None; [|exact Hsub].
    rewrite lookup_insert_ne by done.
    rewrite lookup_delete_ne by (intros E'; by inversion E').
    rewrite lookup_insert_ne by done.
    apply lookup_delete_eq.
  - rewrite rotate_without_current by done. intros Hrun.
    pose proof (shrinks_cleanup_old_files E w) as Hsub.
    rewrite Hrun in Hsub. by eapply lookup_weaken_None.
Qed.

(** Claim C8.  After a completed rotation there is no current rich report,
    so a second rotation, whenever it runs, is the cleanup alone: it moves
    nothing and creates or changes no file, hence no second archive copy. *)
Theorem second_rotation_moves_nothing E w w1 :
  rotate_and_cleanup E w = (Ok tt, w1) ->
  fs w1 !! REPORT_FILE_MD = None
  /\ forall E',
       rotate_and_cleanup E' w1 = cleanup_old_files E' w1
       /\ fs (snd (rotate_and_cleanup E' w1)) ⊆ fs w1.
Proof.
  intros Hrun. pose proof (rotate_removes_current E w w1 Hrun) as Hmd.
  split; [exact Hmd|]. intros E'.
  rewrite rotate_without_current by done.
  split; [reflexivity|]. apply shrinks_cleanup_old_files.
Qed.

(** The report pair of the evening before. *)
Lemma second_rotation_moves_nothing_witness :
  fs (snd (rotate_and_cleanup quiet_env yesterday_world)) !! REPORT_FILE_MD = None
  /\ forall E',
       rotate_and_cleanup E' (snd (rotate_and_cleanup quiet_env yesterday_world))
       = cleanup_old_files E' (snd (rotate_and_cleanup quiet_env yesterday_world))
       /\ fs (snd (rotate_and_cleanup E'
                     (snd (rotate_and_cleanup quiet_env yesterday_world))))
          ⊆ fs (snd (rotate_and_cleanup quiet_env yesterday_world)).
Proof.
  apply (second_rotation_moves_nothing quiet_env yesterday_world
           (snd (rotate_and_cleanup quiet_env yesterday_world))).
  vm_compute. reflexivity.
Defined.

(** ** Report generation *)

(** [get_tasks] returns and touches no file. *)
Lemma get_tasks_total E w :
  exists b w', get_tasks E w = (Ok b, w') /\ fs w' = fs w.
Proof.
  destruct (fault E (AtNow (ticks w))) as [e|] eqn:Hclock.
  - rewrite (get_tasks_clock_fault E w e Hclock). eauto.
  - destruct (get_tasks_run E w Hclock) as (l & -> & _). eauto.
Qed.

(** [get_tasks] reads the clock once and writes nothing. *)
Lemma get_tasks_frame E w :
  exists b lg qs,
    get_tasks E w =
      (Ok b,
       {| fs := fs w; log := (log w ++ lg)%list; queries := (queries w ++ qs)%list;
          ticks := S (ticks w); writes := writes w |}).
Proof.
  destruct (fault E (AtNow (ticks w))) as [e|] eqn:Hclock.
  - rewrite (get_tasks_clock_fault E w e Hclock). by eexists _, _, _.
  - destruct (get_tasks_run E w Hclock) as (l & -> & _). by eexists _, _, _.
Qed.



(** ** The sweep of [cleanup_old_files] *)

Lemma sweep_one_run E ct x f w :
  fs w !! x = Some f ->
  exists l,
    sweep_one E ct x w =
      (Ok tt,
       extend l []
         (if expired ct f && removable E x then set_fs (delete x) w else w))
    /\ (forall e, expired ct f = true -> fault E (AtRemove x) = Some e ->
          l = [delete_error x e]).
Proof.
  intros Hx. unfold sweep_one, expired, removable.
  unfold mbind at 1, M_bind at 1. unfold getmtime. rewrite Hx.
  destruct (7 <? days (ct - mtime f)); cbn [andb].
  - unfold try_except, mbind, M_bind, os_remove.
    destruct (fault E (AtRemove x)) as [e|] eqn:Hfault.
    + rewrite bool_decide_eq_false_2 by done.
      unfold logger. rewrite add_log_extend. eexists. split; [reflexivity|].
      intros e' _ [= <-]. reflexivity.
    + rewrite bool_decide_eq_true_2 by done. rewrite Hx.
      unfold logger. rewrite add_log_extend. eexists. split; [reflexivity|].
      intros e' _ [=].
  - exists []. rewrite extend_nil. split; [reflexivity|]. intros e [=].
Qed.

Lemma sweep_run E ct (l : list string) w :
  NoDup l ->
  (forall x, x ∈ l -> is_Some (fs w !! x)) ->
  exists lg m',
    for_each l (sweep_one E ct) w =
      (Ok tt,
       {| fs := m'; log := (log w ++ lg)%list; queries := queries w;
          ticks := ticks w; writes := writes w |})
    /\ (forall p, m' !! p = swept E ct (fun q => bool_decide (q ∈ l)) (fs w) p)
    /\ (forall x e f, x ∈ l -> fs w !! x = Some f -> expired ct f = true ->
          fault E (AtRemove x) = Some e -> In (delete_error x e) lg).
Proof.
  revert w. induction l as [|x l IH]; intros w Hnd Hex.
  - exists [], (fs w). cbn [for_each]. split; [|split].
    + rewrite app_nil_r. by destruct w.
    + intros p. unfold swept. destruct (fs w !! p); [|done].
      rewrite bool_decide_eq_false_2; [done|]. apply not_elem_of_nil.
    + intros x e f Hin. by apply not_elem_of_nil in Hin.
  - apply NoDup_cons in Hnd as [Hx Hnd].
    destruct (Hex x) as [f Hf]; [left|].
    destruct (sweep_one_run E ct x f w Hf) as (l1 & Hone & Hlog1).
    cbn [for_each]. unfold mbind at 1, M_bind at 1. rewrite Hone.
    set (w1 := extend l1 [] _).
    assert (Hfs1 : forall p, p <> x -> fs w1 !! p = fs w !! p).
    { intros p Hp. subst w1. cbn.
      destruct (expired ct f && removable E x); cbn; [|done].
      by rewrite lookup_delete_ne. }
    assert (Hfsx : fs w1 !! x =
                   if expired ct f && removable E x then None else Some f).
    { subst w1. cbn. destruct (expired ct f && removable E x); cbn; [|done].
      apply lookup_delete_eq. }
    destruct (IH w1 Hnd) as (l2 & m' & Hrest & Hm' & Hlog2).
    { intros y Hy. rewrite Hfs1; [apply Hex; by right|]. intros ->. done. }
    rewrite Hrest. exists (l1 ++ l2)%list, m'. split; [|split].
    + f_equal. subst w1. cbn.
      destruct (expired ct f && removable E x); cbn; by rewrite app_assoc, app_nil_r.
    + intros p. rewrite Hm'. unfold swept.
      destruct (decide (p = x)) as [->|Hp].
      * rewrite Hfsx, Hf.
        rewrite (bool_decide_eq_false_2 (x ∈ l)) by done.
        rewrite (bool_decide_eq_true_2 (x ∈ x :: l)) by left.
        cbn [andb]. by destruct (expired ct f && removable E x).
      * rewrite Hfs1 by done. destruct (fs w !! p) as [g|]; [|done].
        assert (Hiff : bool_decide (p ∈ l) = bool_decide (p ∈ x :: l)).
        { apply bool_decide_ext. rewrite elem_of_cons.
          split; [by right|]. by intros [?|?]. }
        by rewrite Hiff.
    + intros y e g Hy Hg Hexp Hfault. apply in_or_app.
      apply elem_of_cons in Hy as [->|Hy].
      * left. rewrite Hf in Hg. injection Hg as <-.
        rewrite (Hlog1 e Hexp Hfault). by left.
      * right. apply (Hlog2 y e g); try done.
        rewrite Hfs1; [done|]. intros ->. done.
Qed.

Lemma glob_paths before after (m : gmap string file) :
  let l := filter (fun p => Is_true (glob_match before after p)) (fst <$> map_to_list m) in
  NoDup l
  /\ (forall x, x ∈ l -> is_Some (m !! x))
  /\ (forall p, is_Some (m !! p) ->
        bool_decide (p ∈ l) = glob_match before after p).
Proof.
  intros l. split; [|split].
  - apply NoDup_filter, NoDup_fst_map_to_list.
  - intros x [_ Hx]%list_elem_of_filter.
    apply list_elem_of_fmap in Hx as ([y f] & -> & Hy).
    apply elem_of_map_to_list in Hy. eauto.
  - intros p [f Hp]. destruct (glob_match before after p) eqn:Hm.
    + apply bool_decide_eq_true_2, list_elem_of_filter. split; [by rewrite Hm|].
      apply list_elem_of_fmap. exists (p, f). split; [done|].
      by apply elem_of_map_to_list.
    + apply bool_decide_eq_false_2. intros [Hg _]%list_elem_of_filter.
      by rewrite Hm in Hg.
Qed.

Lemma swept_ext E ct (hit hit' : string -> bool) (m : gmap string file) p :
  (is_Some (m !! p) -> hit p = hit' p) ->
  swept E ct hit m p = swept E ct hit' m p.
Proof.
  intros Hhit. unfold swept. destruct (m !! p) as [f|]; [|done].
  by rewrite Hhit by eauto.
Qed.

Lemma cleanup_old_files_run E w :
  fault E (AtNow (ticks w)) = None ->
  exists lg m',
    cleanup_old_files E w =
      (Ok tt,
       {| fs := m'; log := (log w ++ lg)%list; queries := queries w;
          ticks := S (ticks w); writes := writes w |})
    /\ (forall p, m' !! p = swept E (clock E (ticks w)) is_archive (fs w) p)
    /\ (forall p e f,
          is_archive p = true -> fs w !! p = Some f ->
          expired (clock E (ticks w)) f = true ->
          fault E (AtRemove p) = Some e ->
          In (delete_error p e) lg).
Proof.
  intros Hclock. set (ct := clock E (ticks w)).
  change (cleanup_old_files E w) with
    ((current_time ← now E;
      for_each [".md"; ".txt"] (fun ext =>
        paths ← glob archive_pattern ext;
        for_each paths (sweep_one E current_time))) w).
  unfold mbind at 1, M_bind at 1. unfold now. rewrite Hclock. fold ct.
  cbn [for_each]. unfold mbind at 1, M_bind at 1.
  unfold mbind at 1, M_bind at 1. unfold glob at 1.
  destruct (glob_paths archive_pattern ".md" (fs (tick w))) as (Hnd1 & Hex1 & Hhit1).
  destruct (sweep_run E ct _ (tick w) Hnd1 Hex1) as (lg1 & m1 & -> & Hm1 & Hlog1).
  set (w1 := {| fs := m1 |}).
  unfold mbind at 1, M_bind at 1.
  unfold mbind at 1, M_bind at 1. unfold glob at 1.
  destruct (glob_paths archive_pattern ".txt" (fs w1)) as (Hnd2 & Hex2 & Hhit2).
  destruct (sweep_run E ct _ w1 Hnd2 Hex2) as (lg2 & m2 & -> & Hm2 & Hlog2).
  exists (lg1 ++ lg2)%list, m2. cbn. split; [|split].
  - by rewrite app_assoc.
  - intros p. rewrite Hm2.
    rewrite (swept_ext E ct _ (glob_match archive_pattern ".txt")) by apply Hhit2.
    unfold swept at 1. cbn [fs w1]. rewrite Hm1.
    rewrite (swept_ext E ct _ (glob_match archive_pattern ".md")) by apply Hhit1.
    unfold swept, is_archive. cbn [fs tick].
    destruct (fs w !! p) as [f|]; [|done].
    destruct (glob_match archive_pattern ".md" p); cbn [andb orb].
    + destruct (expired ct f && removable E p) eqn:Hgo; [done|].
      by rewrite <- andb_assoc, Hgo, andb_false_r.
    + reflexivity.
  - intros p e f Harch Hp Hexp Hfault. apply in_or_app.
    unfold is_archive in Harch.
    destruct (glob_match archive_pattern ".md" p) eqn:Hmd.
    + left. apply (Hlog1 p e f); try done.
      eapply bool_decide_eq_true_1. rewrite Hhit1; [done|]. cbn. eauto.
    + right. cbn in Harch.
      assert (Hp1 : m1 !! p = Some f).
      { rewrite Hm1. unfold swept. cbn [fs tick]. rewrite Hp.
        assert (removable E p = false) as ->
          by (unfold removable; rewrite bool_decide_eq_false_2; congruence).
        by rewrite andb_false_r. }
      apply (Hlog2 p e f); try done.
      eapply bool_decide_eq_true_1. rewrite Hhit2; [done|]. cbn. eauto.
Qed.

(** ** Archive names *)

Lemma digit_cases x :
  exists n, (n < 10)%nat /\ digit x = ascii_of_nat (48 + n).
Proof.
  exists (Z.to_nat (x mod 10)). split; [|reflexivity].
  pose proof (Z.mod_pos_bound x 10 eq_refl). lia.
Qed.

Lemma digit_not_slash x : Ascii.eqb (digit x) "/" = false.
Proof.
  destruct (digit_cases x) as (n & Hn & ->).
  do 10 (destruct n as [|n]; [reflexivity|]). lia.
Qed.

Lemma lacks_app c s t : lacks c (s ++ t) = lacks c s && lacks c t.
Proof.
  induction s as [|a s IH]; [reflexivity|].
  rewrite append_cons. cbn [lacks]. by rewrite IH, andb_assoc.
Qed.

Lemma contains_char c s : contains (String c "") s = negb (lacks c s).
Proof.
  induction s as [|a s IH]; [reflexivity|].
  rewrite contains_cons, IH. cbn [is_prefix lacks].
  rewrite andb_true_r, negb_andb, negb_involutive.
  by rewrite Ascii.eqb_sym.
Qed.

Lemma length_append s t :
  String.length (s ++ t) = (String.length s + String.length t)%nat.
Proof.
  induction s as [|a s IH]; [reflexivity|].
  rewrite append_cons. cbn [String.length]. by rewrite IH.
Qed.

Lemma substring_append s t :
  substring (String.length s) (String.length t) (s ++ t) = t.
Proof.
  induction s as [|a s IH].
  - change ("" ++ t) with t. cbn [String.length].
    induction t as [|b t IHt]; [reflexivity|].
    cbn [String.length substring]. by rewrite IHt.
  - rewrite append_cons. cbn [String.length substring]. exact IH.
Qed.

Lemma ends_with_append s t : ends_with t (s ++ t) = true.
Proof.
  unfold ends_with. rewrite length_append.
  replace (String.length s + String.length t - String.length t)%nat
    with (String.length s) by lia.
  rewrite substring_append, String.eqb_refl, andb_true_r.
  apply Nat.leb_le. lia.
Qed.

Lemma drop_prefix_append a s : drop_prefix a (a ++ s) = Some s.
Proof.
  induction a as [|c a IH]; [reflexivity|].
  rewrite append_cons. cbn [drop_prefix]. by rewrite Ascii.eqb_refl.
Qed.

Lemma pad2_lacks_slash n : lacks "/" (pad2 n) = true.
Proof. unfold pad2. cbn [lacks]. by rewrite !digit_not_slash. Qed.

Lemma strftime_archive_lacks_slash t : lacks "/" (strftime_archive t) = true.
Proof.
  unfold strftime_archive. destruct (ymd_of (date_of t)) as [[y m] d].
  unfold pad4. rewrite !lacks_app, !pad2_lacks_slash.
  cbn [lacks append]. by rewrite !digit_not_slash, pad2_lacks_slash.
Qed.

Lemma archive_name_matches t ext :
  lacks "/" ext = true ->
  glob_match archive_pattern ext (archive_path (strftime_archive t) ext) = true.
Proof.
  intros Hext. unfold glob_match, archive_path.
  change (TARGET_DIR ++ "/tasks_report_" ++ strftime_archive t ++ ext)
    with (archive_pattern ++ (strftime_archive t ++ ext)).
  rewrite drop_prefix_append, ends_with_append, contains_char, lacks_app.
  by rewrite strftime_archive_lacks_slash, Hext.
Qed.

Lemma archive_name_is_archive t ext :
  ext = ".md" \/ ext = ".txt" ->
  is_archive (archive_path (strftime_archive t) ext) = true.
Proof.
  intros [-> | ->]; unfold is_archive.
  - by rewrite archive_name_matches.
  - rewrite (archive_name_matches t ".txt") by done. apply orb_true_r.
Qed.

Lemma drop_prefix_Some a p rest :
  drop_prefix a p = Some rest -> p = a ++ rest.
Proof.
  revert p; induction a as [|c a IH]; intros p H.
  - by injection H as ->.
  - destruct p as [|b p]; [done|]. cbn [drop_prefix] in H.
    destruct (Ascii.eqb c b) eqn:Hcb; [|done].
    apply Ascii.eqb_eq in Hcb as ->. by rewrite (IH p H).
Qed.

Lemma is_prefix_append a s : is_prefix a (a ++ s) = true.
Proof.
  induction a as [|c a IH]; [apply is_prefix_nil_l|].
  rewrite append_cons. cbn [is_prefix]. by rewrite Ascii.eqb_refl.
Qed.

Lemma is_archive_report_name p :
  is_archive p = true -> is_prefix "target/tasks_report" p = true.
Proof.
  assert (Hone : forall ext, glob_match archive_pattern ext p = true ->
                   is_prefix "target/tasks_report" p = true).
  { intros ext. unfold glob_match.
    destruct (drop_prefix archive_pattern p) as [rest|] eqn:Hdrop; [|done].
    intros _. apply drop_prefix_Some in Hdrop as ->.
    change (archive_pattern ++ rest) with ("target/tasks_report" ++ ("_" ++ rest)).
    apply is_prefix_append. }
  unfold is_archive. intros [H|H]%orb_true_iff; eauto.
Qed.

Lemma archive_path_ext_inj ts e1 e2 :
  archive_path ts e1 = archive_path ts e2 -> e1 = e2.
Proof.
  unfold archive_path. intros H.
  by repeat apply String.app_inj in H.
Qed.

Lemma rotate_and_cleanup_run E w f g :
  fs w !! REPORT_FILE_MD = Some f ->
  fs w !! REPORT_FILE_TXT = Some g ->
  fault E (AtNow (ticks w)) = None ->
  fault E (AtNow (S (ticks w))) = None ->
  let ts := strftime_archive (clock E (ticks w)) in
  let ct := clock E (S (ticks w)) in
  exists w',
    rotate_and_cleanup E w = (Ok tt, w')
    /\ ticks w' = S (S (ticks w))
    /\ writes w' = writes w
    /\ fs w' !! REPORT_FILE_MD = None
    /\ fs w' !! REPORT_FILE_TXT = None
    /\ fs w' !! archive_path ts ".md" =
         (if expired ct f && removable E (archive_path ts ".md") then None else Some f)
    /\ fs w' !! archive_path ts ".txt" =
         (if expired ct g && removable E (archive_path ts ".txt") then None else Some g)
    /\ (forall p, is_prefix "target/tasks_report" p = false ->
          fs w' !! p = fs w !! p).
Proof.
  intros Hmd Htxt Hclock1 Hclock2 ts ct. unfold rotate_and_cleanup.
  unfold mbind at 1, M_bind at 1. unfold path_exists.
  rewrite bool_decide_eq_true_2 by eauto.
  unfold mbind at 1, M_bind at 1.
  unfold mbind at 1, M_bind at 1. unfold now at 1. rewrite Hclock1.
  unfold mbind at 1, M_bind at 1. unfold shutil_move at 1.
  cbn [fs tick]. rewrite Hmd.
  unfold shutil_move at 1. cbn [fs set_fs tick]. fold ts.
  destruct (archive_is_not_current ts ".md") as [Hmd1 Hmd2].
  destruct (archive_is_not_current ts ".txt") as [Htxt1 Htxt2].
  assert (Hne : archive_path ts ".txt" <> archive_path ts ".md").
  { intros H%archive_path_ext_inj. discriminate. }
  rewrite lookup_insert_ne by done.
  rewrite lookup_delete_ne by (intros H; by inversion H).
  rewrite Htxt.
  match goal with |- context [cleanup_old_files E ?w0] => set (w3 := w0) end.
  destruct (cleanup_old_files_run E w3 Hclock2) as (lg & m' & -> & Hm' & _).
  eexists. split; [reflexivity|]. cbn [fs ticks writes w3 set_fs tick].
  split; [reflexivity|]. split; [reflexivity|].
  fold ct in Hm'.
  assert (Hf3 : forall p, fs w3 !! p =
            <[archive_path ts ".txt" := g]>
              (delete REPORT_FILE_TXT
                 (<[archive_path ts ".md" := f]> (delete REPORT_FILE_MD (fs w)))) !! p)
    by reflexivity.
  pose proof (archive_name_is_archive (clock E (ticks w)) ".md" (or_introl eq_refl)) as Ha1.
  pose proof (archive_name_is_archive (clock E (ticks w)) ".txt" (or_intror eq_refl)) as Ha2.
  fold ts in Ha1, Ha2.
  repeat split.
  - rewrite Hm'. unfold swept. rewrite Hf3.
    rewrite lookup_insert_ne by done.
    rewrite lookup_delete_ne by (intros H; by inversion H).
    rewrite lookup_insert_ne by done.
    by rewrite lookup_delete_eq.
  - rewrite Hm'. unfold swept. rewrite Hf3.
    rewrite lookup_insert_ne by done.
    by rewrite lookup_delete_eq.
  - rewrite Hm'. unfold swept. rewrite Hf3.
    rewrite lookup_insert_ne by done.
    rewrite lookup_delete_ne by done.
    rewrite lookup_insert_eq.
    by rewrite Ha1.
  - rewrite Hm'. unfold swept. rewrite Hf3.
    rewrite lookup_insert_eq.
    by rewrite Ha2.
  - intros p Hp. rewrite Hm'. unfold swept. rewrite Hf3.
    assert (Hp1 : forall q, is_prefix "target/tasks_report" q = true -> p <> q)
      by (intros q Hq ->; congruence).
    rewrite lookup_insert_ne by (apply not_eq_sym, Hp1; reflexivity).
    rewrite lookup_delete_ne by (apply not_eq_sym, Hp1; reflexivity).
    rewrite lookup_insert_ne by (apply not_eq_sym, Hp1; reflexivity).
    rewrite lookup_delete_ne by (apply not_eq_sym, Hp1; reflexivity).
    destruct (fs w !! p) as [h|]; [|done].
    assert (is_archive p = false) as ->; [|done].
    destruct (is_archive p) eqn:Harch; [|done].
    apply is_archive_report_name in Harch. congruence.
Qed.

Lemma keeps_ret p {A : Type} (a : A) : keeps p (mret a).
Proof. intros w. reflexivity. Qed.

Lemma keeps_bind p {A B : Type} (m : M A) (k : A -> M B) :
  keeps p m -> (forall a, keeps p (k a)) -> keeps p (m ≫= k).
Proof.
  intros Hm Hk w. unfold mbind, M_bind. specialize (Hm w).
  destruct (m w) as [[a|e] w1]; cbn in *; [|done].
  by rewrite Hk.
Qed.

Lemma keeps_try p {A : Type} (m : M A) (h : exn -> M A) :
  keeps p m -> (forall e, keeps p (h e)) -> keeps p (try_except m h).
Proof.
  intros Hm Hh w. unfold try_except. specialize (Hm w).
  destruct (m w) as [[a|e] w1]; cbn in *; [done|].
  by rewrite Hh.
Qed.

Lemma keeps_for_each p {A : Type} (l : list A) (body : A -> M unit) :
  (forall x, keeps p (body x)) -> keeps p (for_each l body).
Proof.
  intros Hbody. induction l as [|x l IH]; cbn [for_each].
  - apply keeps_ret.
  - apply keeps_bind; [apply Hbody|]. intros _. apply IH.
Qed.

Lemma keeps_same_fs p {A : Type} (m : M A) :
  (forall w, fs (snd (m w)) = fs w) -> keeps p m.
Proof. intros H w. by rewrite H. Qed.

Lemma keeps_now p E : keeps p (now E).
Proof. apply keeps_same_fs. intros w. unfold now. by destruct (fault E _). Qed.

Lemma keeps_logger p l msg : keeps p (logger l msg).
Proof. by apply keeps_same_fs. Qed.

Lemma keeps_lift p {A : Type} (r : result A) : keeps p (lift r).
Proof. by apply keeps_same_fs. Qed.

Lemma keeps_raise p {A : Type} e : keeps p (@raise A e).
Proof. by apply keeps_same_fs. Qed.


Lemma keeps_path_exists p q : keeps p (path_exists q).
Proof. by apply keeps_same_fs. Qed.

Lemma keeps_json_load p q : keeps p (json_load q).
Proof.
  apply keeps_same_fs. intros w. unfold json_load.
  by destruct (fs w !! q) as [[[]]|].
Qed.

Lemma keeps_shutil_move p src dst :
  p <> src -> p <> dst -> keeps p (shutil_move src dst).
Proof.
  intros Hsrc Hdst w. unfold shutil_move. destruct (fs w !! src); [|done].
  cbn. by rewrite lookup_insert_ne, lookup_delete_ne.
Qed.

Lemma keeps_open_w p E q : p <> q -> keeps p (open_w E q).
Proof. intros Hq w. unfold open_w. cbn. by rewrite lookup_insert_ne. Qed.

Lemma keeps_file_write p E q s : p <> q -> keeps p (file_write E q s).
Proof.
  intros Hq w. unfold file_write. destruct (fault E _); [done|].
  cbn. by rewrite lookup_insert_ne.
Qed.


Lemma keeps_get_tasks p E : keeps p (get_tasks E).
Proof.
  apply keeps_same_fs. intros w.
  by destruct (get_tasks_total E w) as (b & w' & -> & Hfs).
Qed.

Lemma keeps_cleanup_old_files p E :
  is_archive p = false -> keeps p (cleanup_old_files E).
Proof.
  intros Hp w. destruct (fault E (AtNow (ticks w))) as [e|] eqn:Hclock.
  - unfold cleanup_old_files, mbind, M_bind, now. by rewrite Hclock.
  - destruct (cleanup_old_files_run E w Hclock) as (lg & m' & -> & Hm' & _).
    cbn. rewrite Hm'. unfold swept. rewrite Hp. by destruct (fs w !! p).
Qed.

Lemma report_name_facts p :
  is_report_name p = false ->
  p <> REPORT_FILE_MD /\ p <> REPORT_FILE_TXT
  /\ is_archive p = false
  /\ forall ts ext, p <> archive_path ts ext.
Proof.
  unfold is_report_name. intros Hp.
  assert (Hne : forall q, is_prefix "target/tasks_report" q = true -> p <> q)
    by (intros q Hq ->; congruence).
  split; [by apply Hne|]. split; [by apply Hne|]. split.
  - destruct (is_archive p) eqn:Harch; [|done].
    apply is_archive_report_name in Harch. congruence.
  - intros ts ext. by apply Hne.
Qed.

Lemma keeps_rotate_and_cleanup p E :
  is_report_name p = false -> keeps p (rotate_and_cleanup E).
Proof.
  intros (Hmd & Htxt & Harch & Hpath)%report_name_facts.
  unfold rotate_and_cleanup.
  apply keeps_bind; [apply keeps_path_exists|]. intros found.
  apply keeps_bind; [|intros _; by apply keeps_cleanup_old_files].
  destruct found; [|apply keeps_ret].
  apply keeps_bind; [apply keeps_now|]. intros t.
  apply keeps_bind; [by apply keeps_shutil_move|]. intros _.
  by apply keeps_shutil_move.
Qed.

Lemma keeps_write_section p E info title tasks :
  p <> REPORT_FILE_MD -> p <> REPORT_FILE_TXT ->
  keeps p (write_section E info title tasks).
Proof.
  intros Hmd Htxt. unfold write_section. destruct tasks as [|t tasks]; [apply keeps_ret|].
  apply keeps_try; [|intros e; apply keeps_logger].
  apply keeps_bind; [by apply keeps_file_write|]. intros _.
  apply keeps_bind; [by apply keeps_file_write|]. intros _.
  apply keeps_bind.
  - apply keeps_for_each. intros x. unfold write_task.
    apply keeps_try; [|intros e; apply keeps_logger].
    apply keeps_bind; [apply keeps_lift|]. intros line.
    apply keeps_bind; [by apply keeps_file_write|]. intros _.
    by apply keeps_file_write.
  - intros _. apply keeps_bind; [by apply keeps_file_write|]. intros _.
    by apply keeps_file_write.
Qed.

Lemma keeps_write_report p E info b :
  p <> REPORT_FILE_MD -> p <> REPORT_FILE_TXT ->
  keeps p (write_report E info b).
Proof.
  intros Hmd Htxt. destruct b as [[[[hp dt] od] nd] oo]. unfold write_report.
  apply keeps_bind; [apply keeps_now|]. intros t.
  apply keeps_bind; [by apply keeps_file_write|]. intros _.
  apply keeps_bind; [by apply keeps_file_write|]. intros _.
  apply keeps_bind; [by apply keeps_write_section|]. intros _.
  apply keeps_bind; [by apply keeps_write_section|]. intros _.
  apply keeps_bind; [by apply keeps_write_section|]. intros _.
  apply keeps_bind.
  - destruct (oo =? 0)%nat; [apply keeps_ret|].
    apply keeps_bind; [by apply keeps_file_write|]. intros _.
    by apply keeps_file_write.
  - intros _. destruct (nd =? 0)%nat; [apply keeps_ret|].
    apply keeps_bind; [by apply keeps_file_write|]. intros _.
    by apply keeps_file_write.
Qed.

Lemma keeps_generate_report p E :
  is_report_name p = false -> keeps p (generate_report E).
Proof.
  intros Hp. destruct (report_name_facts p Hp) as (Hmd & Htxt & _).
  unfold generate_report.
  apply keeps_try.
  - apply keeps_bind; [apply keeps_get_tasks|]. intros b.
    apply keeps_bind; [apply keeps_logger|]. intros _.
    apply keeps_bind; [apply keeps_json_load|]. intros info.
    apply keeps_bind; [by apply keeps_rotate_and_cleanup|]. intros _.
    apply keeps_bind; [by apply keeps_open_w|]. intros _.
    apply keeps_bind; [by apply keeps_open_w|]. intros _.
    apply keeps_bind; [by apply keeps_write_report|]. intros _.
    apply keeps_logger.
  - intros e. apply keeps_bind; [apply keeps_logger|]. intros _. apply keeps_raise.
Qed.


(** ** The report pair after a failed run *)
















(** * Further properties *)

(** ** Cleanup *)

Lemma expired_iff ct f : expired ct f = true <-> timedelta_days 8 <= ct - mtime f.
Proof. unfold expired. rewrite Z.ltb_lt. apply days_exceeds_seven. Qed.

(** Property X1.  When the clock can be read, [cleanup_old_files] returns normally
    and deletes exactly the files that match one of the two archive patterns,
    are at least 8 full days old and can be removed; every other file stays
    as it is and no file is created. *)
Theorem cleanup_deletes_old_archives_only E w :
  fault E (AtNow (ticks w)) = None ->
  exists w',
    cleanup_old_files E w = (Ok tt, w')
    /\ (forall p f,
          fs w !! p = Some f ->
          is_archive p = true ->
          timedelta_days 8 <= clock E (ticks w) - mtime f ->
          fault E (AtRemove p) = None ->
          fs w' !! p = None)
    /\ (forall p f,
          fs w !! p = Some f ->
          is_archive p = false
          \/ clock E (ticks w) - mtime f < timedelta_days 8
          \/ fault E (AtRemove p) <> None ->
          fs w' !! p = Some f)
    /\ (forall p, fs w !! p = None -> fs w' !! p = None).
Proof.
  intros Hclock.
  destruct (cleanup_old_files_run E w Hclock) as (lg & m' & -> & Hm' & _).
  eexists. split; [reflexivity|]. cbn [fs]. split; [|split].
  - intros p f Hp Harch Hage Hrm. rewrite Hm'. unfold swept, removable.
    rewrite Hp, Harch, (proj2 (expired_iff _ f)) by done.
    by rewrite bool_decide_eq_true_2.
  - intros p f Hp Hkeep. rewrite Hm'. unfold swept. rewrite Hp.
    destruct Hkeep as [Harch|[Hage|Hrm]].
    + by rewrite Harch.
    + assert (expired (clock E (ticks w)) f = false) as ->.
      { destruct (expired _ f) eqn:Hexp; [|done].
        apply expired_iff in Hexp. lia. }
      by rewrite andb_false_r.
    + unfold removable. rewrite bool_decide_eq_false_2 by done.
      by rewrite andb_false_r.
  - intros p Hp. rewrite Hm'. unfold swept. by rewrite Hp.
Qed.

(** The three archived reports, swept on the sample morning. *)
Lemma cleanup_deletes_old_archives_only_witness :
  exists w',
    cleanup_old_files quiet_env archive_world = (Ok tt, w')
    /\ (forall p f,
          fs archive_world !! p = Some f ->
          is_archive p = true ->
          timedelta_days 8 <= clock quiet_env (ticks archive_world) - mtime f ->
          fault quiet_env (AtRemove p) = None ->
          fs w' !! p = None)
    /\ (forall p f,
          fs archive_world !! p = Some f ->
          is_archive p = false
          \/ clock quiet_env (ticks archive_world) - mtime f < timedelta_days 8
          \/ fault quiet_env (AtRemove p) <> None ->
          fs w' !! p = Some f)
    /\ (forall p, fs archive_world !! p = None -> fs w' !! p = None).
Proof.
  apply (cleanup_deletes_old_archives_only quiet_env archive_world). reflexivity.
Defined.

(** Property X2.  A removal that fails does not end the sweep: the file is
    kept, the error is logged, and [cleanup_old_files] still returns
    normally. *)
Theorem cleanup_survives_failed_removal E w p f e :
  fault E (AtNow (ticks w)) = None ->
  fs w !! p = Some f ->
  is_archive p = true ->
  timedelta_days 8 <= clock E (ticks w) - mtime f ->
  fault E (AtRemove p) = Some e ->
  exists w',
    cleanup_old_files E w = (Ok tt, w')
    /\ fs w' !! p = Some f
    /\ In (delete_error p e) (log w').
Proof.
  intros Hclock Hp Harch Hage Hrm.
  destruct (cleanup_old_files_run E w Hclock) as (lg & m' & -> & Hm' & Hlog).
  eexists. split; [reflexivity|]. cbn [fs log]. split.
  - rewrite Hm'. unfold swept, removable. rewrite Hp.
    rewrite bool_decide_eq_false_2 by congruence. by rewrite andb_false_r.
  - apply in_or_app. right. apply (Hlog p e f); try done. by apply expired_iff.
Qed.

(** The oldest archived report cannot be removed. *)
Lemma cleanup_survives_failed_removal_witness :
  exists w',
    cleanup_old_files locked_archive_env archive_world = (Ok tt, w')
    /\ fs w' !! "target/tasks_report_2024_02_22.txt"
       = Some (report_file "# Task Report" (mk_datetime 2024 2 22 9 30 0))
    /\ In (delete_error "target/tasks_report_2024_02_22.txt" OSError) (log w').
Proof.
  apply (cleanup_survives_failed_removal locked_archive_env archive_world
           "target/tasks_report_2024_02_22.txt"
           (report_file "# Task Report" (mk_datetime 2024 2 22 9 30 0)) OSError).
  - reflexivity.
  - vm_compute. reflexivity.
  - vm_compute. reflexivity.
  - vm_compute. discriminate.
  - reflexivity.
Defined.

(** Property X3.  The current report pair and the project cache match neither
    archive pattern, and [cleanup_old_files] never changes a file that
    matches neither, whatever the clock and the faults. *)
Theorem cleanup_spares_other_files :
  is_archive REPORT_FILE_MD = false
  /\ is_archive REPORT_FILE_TXT = false
  /\ is_archive PROJECTS_JSON_FILE = false
  /\ forall E w p,
       is_archive p = false ->
       fs (snd (cleanup_old_files E w)) !! p = fs w !! p.
Proof.
  repeat split. intros E w p Hp. by apply keeps_cleanup_old_files.
Qed.

(** The rich report of the evening before. *)
Lemma cleanup_spares_other_files_witness :
  fs (snd (cleanup_old_files quiet_env yesterday_world)) !! REPORT_FILE_MD
  = fs yesterday_world !! REPORT_FILE_MD.
Proof.
  apply (proj2 (proj2 (proj2 cleanup_spares_other_files))
           quiet_env yesterday_world REPORT_FILE_MD).
  reflexivity.
Defined.

(** Property X4.  [generate_report] changes no file whose name does not start
    with "target/tasks_report"; in particular it never changes the project
    cache, whether it succeeds or fails. *)
Theorem generate_report_touches_report_files_only :
  is_report_name PROJECTS_JSON_FILE = false
  /\ forall E w p,
       is_report_name p = false ->
       fs (snd (generate_report E w)) !! p = fs w !! p.
Proof.
  split; [reflexivity|]. intros E w p Hp. by apply keeps_generate_report.
Qed.

(** The project cache during a run. *)
Lemma generate_report_touches_report_files_only_witness :
  fs (snd (generate_report quiet_env yesterday_world)) !! PROJECTS_JSON_FILE
  = fs yesterday_world !! PROJECTS_JSON_FILE.
Proof.
  apply (proj2 generate_report_touches_report_files_only
           quiet_env yesterday_world PROJECTS_JSON_FILE).
  reflexivity.
Defined.

(** ** Refresh *)


Lemma project_item_nameless p : nameless p = true -> project_item p = Ok None.
Proof.
  unfold nameless, project_item. destruct (properties p) as [| |props]; try done.
  cbn. by destruct (prop_Name props).
Qed.

Lemma project_item_pair p k s :
  entry_pair p = Some (k, s) -> project_item p = Ok (Some (k, Some s)).
Proof.
  unfold entry_pair, project_item.
  destruct (page_id p) as [| |k0]; try done.
  destruct (properties p) as [| |props]; try done. cbn.
  destruct (prop_Name props) as [| |name_prop]; try done. cbn.
  destruct (title name_prop) as [| |[|first rest]]; try done. cbn.
  destruct (text first) as [| |txt]; try done. cbn.
  destruct (content txt) as [| |s0]; try done. cbn.
  by intros [= -> ->].
Qed.

Lemma project_items_named entries acc :
  Forall well_formed_entry entries ->
  project_items entries acc =
    Ok (foldl (fun m kv => <[kv.1 := Some kv.2]> m) acc (omap entry_pair entries)).
Proof.
  intros Hall. revert acc. induction Hall as [|p entries Hp _ IH]; intros acc.
  - reflexivity.
  - cbn [project_items omap list_omap]. unfold mbind, result_bind.
    destruct Hp as [Hp|[[k s] Hp]].
    + rewrite (project_item_nameless p Hp).
      assert (entry_pair p = None) as ->; [|apply IH].
      unfold nameless in Hp. unfold entry_pair.
      destruct (page_id p), (properties p) as [| |props]; try done;
        by destruct (prop_Name props).
    + rewrite (project_item_pair p k s Hp), Hp. cbn [foldl fst snd]. apply IH.
Qed.

Lemma foldl_insert_lookup (l : list (string * string)) (acc : gmap string pystr) k v :
  NoDup (l.*1) ->
  foldl (fun m kv => <[kv.1 := Some kv.2]> m) acc l !! k = Some v
  <-> (exists s, (k, s) ∈ l /\ v = Some s) \/ ((k ∉ l.*1) /\ acc !! k = Some v).
Proof.
  revert acc. induction l as [|[k0 s0] l IH]; intros acc Hnd.
  - cbn. split.
    + intros H. right. split; [apply not_elem_of_nil|done].
    + intros [(s & H & _)|[_ H]]; [by apply elem_of_nil in H|done].
  - cbn in Hnd. apply NoDup_cons in Hnd as [Hk0 Hnd]. cbn [foldl fst snd].
    rewrite IH by done. cbn [fmap list_fmap fst].
    rewrite not_elem_of_cons. split.
    + intros [(s & Hin & ->)|[Hk Hacc]].
      * left. exists s. split; [by apply elem_of_cons; right|done].
      * destruct (decide (k = k0)) as [->|Hne].
        -- rewrite lookup_insert_eq in Hacc. injection Hacc as <-.
           left. exists s0. split; [by apply elem_of_cons; left|done].
        -- rewrite lookup_insert_ne in Hacc by done. by right.
    + intros [(s & [Heq|Hin]%elem_of_cons & ->)|[[Hne Hk] Hacc]].
      * injection Heq as -> ->. right. split; [done|]. apply lookup_insert_eq.
      * left. by exists s.
      * right. split; [done|]. by rewrite lookup_insert_ne.
Qed.

(** Property X6.  On a cold start, when the cache file can be written, every
    entry of the answer either has no [Name] property or has an identifier
    and a [Name] whose first title item carries a text content, and the
    identifiers of the named entries differ, the refresh writes a cache
    stamped with the reading of the clock; loading it gives back exactly the
    identifier and name of each named entry, and no other file changes. *)
Theorem refresh_persists_named_projects E w entries :
  fs w !! PROJECTS_JSON_FILE = None ->
  fault E (AtNow (ticks w)) = None ->
  fault E (AtDump PROJECTS_JSON_FILE) = None ->
  query E projects_request = Ok {| results := Val entries |} ->
  Forall well_formed_entry entries ->
  NoDup ((omap entry_pair entries).*1) ->
  exists w' names,
    refresh_projects_info E w = (Ok tt, w')
    /\ json_load PROJECTS_JSON_FILE w' =
         (Ok {| generated_at := clock E (ticks w); projects := Val names |}, w')
    /\ (forall k v,
          names !! k = Some v
          <-> exists p s, p ∈ entries /\ entry_pair p = Some (k, s) /\ v = Some s)
    /\ (forall p, p <> PROJECTS_JSON_FILE -> fs w' !! p = fs w !! p).
Proof.
  intros Hcache Hclock Hdump Hquery Hall Hnd.
  unfold refresh_projects_info, json_dump.
  unfold mbind at 1, M_bind at 1. unfold path_exists.
  rewrite bool_decide_eq_false_2 by (rewrite Hcache; by intros [? ?]).
  unfold mbind at 1, M_bind at 1. unfold mret at 1, M_ret at 1.
  unfold mbind, M_bind, logger, databases_query, now, lift, open_w, dump_document.
  rewrite Hquery. cbn [ticks add_log add_query tick results dict_get not_none].
  rewrite Hclock. rewrite (project_items_named entries ∅ Hall). rewrite Hdump.
  eexists _, _. split; [reflexivity|]. split; [|split].
  - unfold json_load. cbn. by rewrite lookup_insert_eq.
  - intros k v. rewrite foldl_insert_lookup by done. rewrite lookup_empty. split.
    + intros [(s & Hin & ->)|[_ H]]; [|discriminate].
      apply list_elem_of_omap in Hin as (p & Hp & Hpair). by exists p, s.
    + intros (p & s & Hp & Hpair & ->). left. exists s. split; [|done].
      apply list_elem_of_omap. by exists p.
  - intros p Hp. cbn. by rewrite !lookup_insert_ne.
Qed.

(** An entry without [Name] and the project "Alpha". *)
Lemma refresh_persists_named_projects_witness :
  exists w' names,
    refresh_projects_info
      (projects_env [project_page "p0" Absent; project_page "p1" (titled "Alpha")])
      empty_world = (Ok tt, w')
    /\ json_load PROJECTS_JSON_FILE w' =
         (Ok {| generated_at :=
                  clock (projects_env [project_page "p0" Absent;
                                       project_page "p1" (titled "Alpha")])
                    (ticks empty_world);
                projects := Val names |}, w')
    /\ (forall k v,
          names !! k = Some v
          <-> exists p s,
                p ∈ [project_page "p0" Absent; project_page "p1" (titled "Alpha")]
                /\ entry_pair p = Some (k, s) /\ v = Some s)
    /\ (forall p, p <> PROJECTS_JSON_FILE -> fs w' !! p = fs empty_world !! p).
Proof.
  apply (refresh_persists_named_projects
           (projects_env [project_page "p0" Absent; project_page "p1" (titled "Alpha")])
           empty_world).
  - reflexivity.
  - reflexivity.
  - reflexivity.
  - reflexivity.
  - constructor; [by left|].
    constructor; [right; by eexists|]. constructor.
  - vm_compute. apply NoDup_singleton.
Defined.




(** ** Rotation *)

Lemma not_expired ct f : ct - mtime f < timedelta_days 8 -> expired ct f = false.
Proof.
  intros Hage. destruct (expired ct f) eqn:Hexp; [|done].
  apply expired_iff in Hexp. lia.
Qed.

(** Property X7.  Rotating a report pair younger than 8 days moves both files,
    content and modification time unchanged, to the archive names of the
    day, replacing what was there; no current report is left. *)
Theorem rotation_archives_recent_pair E w f g :
  fs w !! REPORT_FILE_MD = Some f ->
  fs w !! REPORT_FILE_TXT = Some g ->
  fault E (AtNow (ticks w)) = None ->
  fault E (AtNow (S (ticks w))) = None ->
  clock E (S (ticks w)) - mtime f < timedelta_days 8 ->
  clock E (S (ticks w)) - mtime g < timedelta_days 8 ->
  let ts := strftime_archive (clock E (ticks w)) in
  exists w',
    rotate_and_cleanup E w = (Ok tt, w')
    /\ fs w' !! REPORT_FILE_MD = None
    /\ fs w' !! REPORT_FILE_TXT = None
    /\ fs w' !! archive_path ts ".md" = Some f
    /\ fs w' !! archive_path ts ".txt" = Some g.
Proof.
  intros Hmd Htxt Hc1 Hc2 Hf Hg ts.
  destruct (rotate_and_cleanup_run E w f g Hmd Htxt Hc1 Hc2)
    as (w' & Hrun & _ & _ & Hmd' & Htxt' & Hamd & Hatxt & _).
  exists w'. fold ts in Hamd, Hatxt.
  rewrite (not_expired _ f Hf) in Hamd. rewrite (not_expired _ g Hg) in Hatxt.
  done.
Qed.

(** The report pair of the evening before. *)
Lemma rotation_archives_recent_pair_witness :
  exists w',
    rotate_and_cleanup quiet_env yesterday_world = (Ok tt, w')
    /\ fs w' !! REPORT_FILE_MD = None
    /\ fs w' !! REPORT_FILE_TXT = None
    /\ fs w' !! archive_path
                  (strftime_archive (clock quiet_env (ticks yesterday_world))) ".md"
       = Some (report_file "old rich report" (mk_datetime 2024 2 29 20 0 1))
    /\ fs w' !! archive_path
                  (strftime_archive (clock quiet_env (ticks yesterday_world))) ".txt"
       = Some (report_file "old plain report" (mk_datetime 2024 2 29 20 0 1)).
Proof.
  apply (rotation_archives_recent_pair quiet_env yesterday_world
           (report_file "old rich report" (mk_datetime 2024 2 29 20 0 1))
           (report_file "old plain report" (mk_datetime 2024 2 29 20 0 1)));
    vm_compute; reflexivity.
Defined.

(** Property X8.  A rename keeps the modification time, so a report pair of 8
    days or more is archived and deleted in the same pass: afterwards it
    exists neither under its current nor under its archive names. *)
Theorem rotation_loses_stale_pair E w f g :
  fs w !! REPORT_FILE_MD = Some f ->
  fs w !! REPORT_FILE_TXT = Some g ->
  (forall s, fault E s = None) ->
  timedelta_days 8 <= clock E (S (ticks w)) - mtime f ->
  timedelta_days 8 <= clock E (S (ticks w)) - mtime g ->
  let ts := strftime_archive (clock E (ticks w)) in
  exists w',
    rotate_and_cleanup E w = (Ok tt, w')
    /\ fs w' !! REPORT_FILE_MD = None
    /\ fs w' !! REPORT_FILE_TXT = None
    /\ fs w' !! archive_path ts ".md" = None
    /\ fs w' !! archive_path ts ".txt" = None.
Proof.
  intros Hmd Htxt Hquiet Hf Hg ts.
  destruct (rotate_and_cleanup_run E w f g Hmd Htxt (Hquiet _) (Hquiet _))
    as (w' & Hrun & _ & _ & Hmd' & Htxt' & Hamd & Hatxt & _).
  exists w'. fold ts in Hamd, Hatxt.
  rewrite (proj2 (expired_iff _ f) Hf) in Hamd.
  rewrite (proj2 (expired_iff _ g) Hg) in Hatxt.
  unfold removable in *. rewrite bool_decide_eq_true_2 in Hamd by apply Hquiet.
  rewrite bool_decide_eq_true_2 in Hatxt by apply Hquiet.
  done.
Qed.

(** A report pair of ten days. *)
Lemma rotation_loses_stale_pair_witness :
  exists w',
    rotate_and_cleanup quiet_env stale_world = (Ok tt, w')
    /\ fs w' !! REPORT_FILE_MD = None
    /\ fs w' !! REPORT_FILE_TXT = None
    /\ fs w' !! archive_path
                  (strftime_archive (clock quiet_env (ticks stale_world))) ".md" = None
    /\ fs w' !! archive_path
                  (strftime_archive (clock quiet_env (ticks stale_world))) ".txt" = None.
Proof.
  apply (rotation_loses_stale_pair quiet_env stale_world
           (report_file "old rich report" (mk_datetime 2024 2 20 20 0 1))
           (report_file "old plain report" (mk_datetime 2024 2 20 20 0 1))).
  - vm_compute. reflexivity.
  - vm_compute. reflexivity.
  - intros s. reflexivity.
  - vm_compute. discriminate.
  - vm_compute. discriminate.
Defined.

(** Property X9.  When the rich report exists without the plain one,
    [generate_report] archives the rich report, then fails on the second
    rename with [FileNotFoundError]: no new report is written, the error is
    logged and raised. *)
Theorem generate_report_with_half_pair E w f info mt :
  fs w !! REPORT_FILE_MD = Some f ->
  fs w !! REPORT_FILE_TXT = None ->
  fs w !! PROJECTS_JSON_FILE = Some {| data := Json info; mtime := mt |} ->
  fault E (AtNow (S (ticks w))) = None ->
  exists w',
    generate_report E w = (Raise (FileNotFoundError REPORT_FILE_TXT), w')
    /\ fs w' =
         <[archive_path (strftime_archive (clock E (S (ticks w)))) ".md" := f]>
           (delete REPORT_FILE_MD (fs w))
    /\ last (log w') =
         Some (error_record [Txt "Error generating report: ";
                             Exn (FileNotFoundError REPORT_FILE_TXT)]).
Proof.
  intros Hmd Htxt Hcache Hclock. unfold generate_report, try_except.
  unfold mbind at 1, M_bind at 1.
  destruct (get_tasks_frame E w) as (b & lg & qs & ->).
  unfold mbind at 1, M_bind at 1. unfold logger at 1.
  unfold mbind at 1, M_bind at 1. unfold json_load. cbn [fs add_log].
  rewrite Hcache.
  unfold mbind at 1, M_bind at 1. unfold rotate_and_cleanup.
  unfold mbind at 1, M_bind at 1.
  unfold mbind at 1, M_bind at 1. unfold path_exists. cbn [fs].
  rewrite bool_decide_eq_true_2 by eauto.
  unfold mbind at 1, M_bind at 1. unfold now at 1. cbn [ticks add_log]. rewrite Hclock.
  unfold mbind at 1, M_bind at 1. unfold shutil_move at 1. cbn [fs tick add_log].
  rewrite Hmd. unfold shutil_move. cbn [fs set_fs tick add_log].
  destruct (archive_is_not_current
              (strftime_archive (clock E (S (ticks w)))) ".md") as [_ Hne].
  rewrite lookup_insert_ne by done.
  rewrite lookup_delete_ne by (intros H; by inversion H).
  rewrite Htxt. unfold mbind, M_bind, logger, raise.
  eexists. split; [reflexivity|]. cbn. split; [reflexivity|].
  apply last_snoc.
Qed.

(** A rich report alone. *)
Lemma generate_report_with_half_pair_witness :
  exists w',
    generate_report quiet_env half_pair_world
    = (Raise (FileNotFoundError REPORT_FILE_TXT), w')
    /\ fs w' =
         <[archive_path
             (strftime_archive (clock quiet_env (S (ticks half_pair_world)))) ".md"
           := report_file "old rich report" (mk_datetime 2024 2 29 20 0 1)]>
           (delete REPORT_FILE_MD (fs half_pair_world))
    /\ last (log w') =
         Some (error_record [Txt "Error generating report: ";
                             Exn (FileNotFoundError REPORT_FILE_TXT)]).
Proof.
  apply (generate_report_with_half_pair quiet_env half_pair_world
           (report_file "old rich report" (mk_datetime 2024 2 29 20 0 1))
           {| generated_at := mk_datetime 2024 2 29 20 0 0;
              projects := Val {[ "p1" := Some "Alpha" ]} |}
           (mk_datetime 2024 2 29 20 0 0));
    vm_compute; reflexivity.
Defined.

(** ** Sections *)

Lemma write_tasks_run E info tasks lines w :
  Forall2 (fun t l => format_task_line info t = Ok l) tasks lines ->
  (forall n, fault E (AtWrite n) = None) ->
  exists w',
    for_each tasks (write_task E info) w = (Ok tt, w')
    /\ file_text (fs w') REPORT_FILE_MD
       = file_text (fs w) REPORT_FILE_MD ++ lines_text (fun l => l) lines
    /\ file_text (fs w') REPORT_FILE_TXT
       = file_text (fs w) REPORT_FILE_TXT ++ lines_text strip_brackets lines
    /\ log w' = log w
    /\ ticks w' = ticks w.
Proof.
  intros Hlines Hw. revert w.
  induction Hlines as [|t l tasks lines Hl _ IH]; intros w.
  - exists w. cbn [for_each lines_text]. by rewrite !append_nil_r.
  - cbn [for_each]. unfold mbind at 1, M_bind at 1.
    rewrite (write_task_run E info t l w Hl Hw).
    match goal with |- context [for_each tasks _ ?w1] =>
      destruct (IH w1) as (w' & -> & Hmd & Htxt & Hlog & Hticks) end.
    exists w'. split; [reflexivity|].
    pose proof report_files_differ as Hne.
    rewrite Hmd, Htxt, Hlog, Hticks.
    rewrite file_text_put_text_ne, file_text_put_text_eq by done.
    rewrite file_text_put_text_eq, file_text_put_text_ne by done.
    cbn [lines_text]. by rewrite !append_assoc.
Qed.

(** Property X10.  Without write faults, a section with at least one task
    appends to the rich file its heading, one line per task in order and a
    blank line, and to the plain file its label, the same lines with the
    brackets removed and a blank line; nothing is logged. *)
Theorem write_section_renders_every_task E info title t tasks lines w :
  Forall2 (fun t l => format_task_line info t = Ok l) (t :: tasks) lines ->
  (forall n, fault E (AtWrite n) = None) ->
  exists w',
    write_section E info title (t :: tasks) w = (Ok tt, w')
    /\ file_text (fs w') REPORT_FILE_MD
       = file_text (fs w) REPORT_FILE_MD
           ++ "## " ++ title ++ nl ++ lines_text (fun l => l) lines ++ nl
    /\ file_text (fs w') REPORT_FILE_TXT
       = file_text (fs w) REPORT_FILE_TXT
           ++ title ++ ":" ++ nl ++ lines_text strip_brackets lines ++ nl
    /\ log w' = log w.
Proof.
  intros Hlines Hw. unfold write_section, try_except.
  unfold mbind at 1, M_bind at 1. rewrite file_write_run by apply Hw.
  unfold mbind at 1, M_bind at 1. rewrite file_write_run by apply Hw.
  unfold mbind at 1, M_bind at 1.
  match goal with |- context [for_each _ _ ?w1] =>
    destruct (write_tasks_run E info (t :: tasks) lines w1 Hlines Hw)
      as (w2 & -> & Hmd & Htxt & Hlog & Hticks) end.
  unfold mbind at 1, M_bind at 1. rewrite file_write_run by apply Hw.
  rewrite file_write_run by apply Hw.
  eexists. split; [reflexivity|].
  pose proof report_files_differ as Hne.
  split; [|split].
  - rewrite file_text_put_text_ne, file_text_put_text_eq by done.
    rewrite Hmd.
    rewrite file_text_put_text_ne, file_text_put_text_eq by done.
    by rewrite !append_assoc.
  - rewrite file_text_put_text_eq, file_text_put_text_ne by done.
    rewrite Htxt.
    rewrite file_text_put_text_eq, file_text_put_text_ne by done.
    by rewrite !append_assoc.
  - cbn. exact Hlog.
Qed.

(** Two tasks under "Due Today". *)
Lemma write_section_renders_every_task_witness :
  exists w',
    write_section quiet_env alpha_info "Due Today"
      [alpha_cache_task; unknown_named_task] open_world = (Ok tt, w')
    /\ file_text (fs w') REPORT_FILE_MD
       = file_text (fs open_world) REPORT_FILE_MD
           ++ "## " ++ "Due Today" ++ nl
           ++ lines_text (fun l => l)
                ["- [ ] [Fix bug](http://x/1) (Project: Alpha), Status: High";
                 "- [ ] [Unknown Project](http://x/2)"] ++ nl
    /\ file_text (fs w') REPORT_FILE_TXT
       = file_text (fs open_world) REPORT_FILE_TXT
           ++ "Due Today" ++ ":" ++ nl
           ++ lines_text strip_brackets
                ["- [ ] [Fix bug](http://x/1) (Project: Alpha), Status: High";
                 "- [ ] [Unknown Project](http://x/2)"] ++ nl
    /\ log w' = log open_world.
Proof.
  apply (write_section_renders_every_task quiet_env alpha_info "Due Today"
           alpha_cache_task [unknown_named_task]).
  - repeat constructor; vm_compute; reflexivity.
  - intros n. reflexivity.
Defined.

Lemma write_task_without_projects E info t w :
  projects info = Absent ->
  write_task E info t w =
    (Ok tt,
     add_log (error_record [Txt "Error writing task to report: ";
                            Exn (KeyError "projects")]) w).
Proof.
  intros Hproj. unfold write_task, try_except, mbind, M_bind, lift.
  destruct t as [[[n u] pid] st]. unfold format_task_line.
  by rewrite Hproj.
Qed.

Lemma write_tasks_without_projects E info tasks w :
  projects info = Absent ->
  for_each tasks (write_task E info) w =
    (Ok tt,
     extend (replicate (List.length tasks)
               (error_record [Txt "Error writing task to report: ";
                              Exn (KeyError "projects")])) [] w).
Proof.
  intros Hproj. revert w. induction tasks as [|t tasks IH]; intros w.
  - cbn. by rewrite extend_nil.
  - cbn [for_each]. unfold mbind at 1, M_bind at 1.
    rewrite write_task_without_projects by done.
    rewrite IH, add_log_extend, extend_extend. reflexivity.
Qed.

(** Property X11.  With a cache document that lacks the "projects" key, every
    task line fails with [KeyError] and is skipped: the section is reduced to
    its heading and a blank line, with one error logged per task. *)
Theorem write_section_without_projects E info title t tasks w :
  projects info = Absent ->
  (forall n, fault E (AtWrite n) = None) ->
  exists w',
    write_section E info title (t :: tasks) w = (Ok tt, w')
    /\ file_text (fs w') REPORT_FILE_MD
       = file_text (fs w) REPORT_FILE_MD ++ "## " ++ title ++ nl ++ nl
    /\ file_text (fs w') REPORT_FILE_TXT
       = file_text (fs w) REPORT_FILE_TXT ++ title ++ ":" ++ nl ++ nl
    /\ log w' =
         (log w ++ replicate (S (List.length tasks))
                     (error_record [Txt "Error writing task to report: ";
                                    Exn (KeyError "projects")]))%list.
Proof.
  intros Hproj Hw. unfold write_section, try_except.
  unfold mbind at 1, M_bind at 1. rewrite file_write_run by apply Hw.
  unfold mbind at 1, M_bind at 1. rewrite file_write_run by apply Hw.
  unfold mbind at 1, M_bind at 1.
  rewrite write_tasks_without_projects by done.
  unfold mbind at 1, M_bind at 1. rewrite file_write_run by apply Hw.
  rewrite file_write_run by apply Hw.
  eexists. split; [reflexivity|].
  pose proof report_files_differ as Hne.
  split; [|split].
  - rewrite file_text_put_text_ne, file_text_put_text_eq by done.
    cbn [fs extend].
    rewrite file_text_put_text_ne, file_text_put_text_eq by done.
    by rewrite !append_assoc.
  - rewrite file_text_put_text_eq, file_text_put_text_ne by done.
    cbn [fs extend].
    rewrite file_text_put_text_eq, file_text_put_text_ne by done.
    by rewrite !append_assoc.
  - reflexivity.
Qed.

(** The same two tasks under a cache without "projects". *)
Lemma write_section_without_projects_witness :
  exists w',
    write_section quiet_env broken_info "Due Today"
      [alpha_cache_task; unknown_named_task] open_world = (Ok tt, w')
    /\ file_text (fs w') REPORT_FILE_MD
       = file_text (fs open_world) REPORT_FILE_MD ++ "## " ++ "Due Today" ++ nl ++ nl
    /\ file_text (fs w') REPORT_FILE_TXT
       = file_text (fs open_world) REPORT_FILE_TXT ++ "Due Today" ++ ":" ++ nl ++ nl
    /\ log w' =
         (log open_world
            ++ replicate (S (List.length [unknown_named_task]))
                 (error_record [Txt "Error writing task to report: ";
                                Exn (KeyError "projects")]))%list.
Proof.
  apply (write_section_without_projects quiet_env broken_info "Due Today"
           alpha_cache_task [unknown_named_task] open_world).
  - reflexivity.
  - intros n. reflexivity.
Defined.

(** Property X12.  [write_section] never raises, whatever the cache and the
    faults of the disk, and changes no file but the two reports. *)
Theorem write_section_never_raises E info title tasks w :
  fst (write_section E info title tasks w) = Ok tt
  /\ forall p, p <> REPORT_FILE_MD -> p <> REPORT_FILE_TXT ->
       fs (snd (write_section E info title tasks w)) !! p = fs w !! p.
Proof.
  split.
  - unfold write_section. destruct tasks as [|t tasks]; [reflexivity|].
    unfold try_except.
    match goal with |- context [match ?body w with _ => _ end] =>
      by destruct (body w) as [[[]|e] w1] end.
  - intros p Hmd Htxt. by apply keeps_write_section.
Qed.

(** The project cache while a write fails. *)
Lemma write_section_never_raises_witness :
  fs (snd (write_section failing_disk_env alpha_info "Due Today"
             [alpha_cache_task] open_world)) !! PROJECTS_JSON_FILE
  = fs open_world !! PROJECTS_JSON_FILE.
Proof.
  apply (proj2 (write_section_never_raises failing_disk_env alpha_info "Due Today"
                  [alpha_cache_task] open_world) PROJECTS_JSON_FILE);
    discriminate.
Defined.

(** ** Plain text *)

Lemma remove_char_lacks c s : lacks c (remove_char c s) = true.
Proof.
  induction s as [|a s IH]; [reflexivity|]. cbn [remove_char].
  destruct (Ascii.eqb a c) eqn:Hac; [exact IH|].
  cbn [lacks]. by rewrite Hac, IH.
Qed.

Lemma remove_char_keeps_lacks c d s :
  lacks d s = true -> lacks d (remove_char c s) = true.
Proof.
  induction s as [|a s IH]; [done|]. cbn [lacks remove_char].
  intros [Ha Hs]%andb_true_iff. destruct (Ascii.eqb a c); [by apply IH|].
  cbn [lacks]. by rewrite Ha, IH.
Qed.

Lemma remove_char_id c s : lacks c s = true -> remove_char c s = s.
Proof.
  induction s as [|a s IH]; [done|]. cbn [lacks remove_char].
  intros [Ha Hs]%andb_true_iff. apply negb_true_iff in Ha.
  by rewrite Ha, IH.
Qed.

(** Property X13.  The plain form of a line holds no square bracket, also
    none of the task's own; stripping again changes nothing, and a text
    without brackets is left as it is. *)
Theorem strip_brackets_leaves_no_bracket s :
  lacks "[" (strip_brackets s) = true
  /\ lacks "]" (strip_brackets s) = true
  /\ strip_brackets (strip_brackets s) = strip_brackets s
  /\ (lacks "[" s = true -> lacks "]" s = true -> strip_brackets s = s).
Proof.
  unfold strip_brackets.
  assert (H1 : lacks "[" (remove_char "]" (remove_char "[" s)) = true)
    by apply remove_char_keeps_lacks, remove_char_lacks.
  assert (H2 : lacks "]" (remove_char "]" (remove_char "[" s)) = true)
    by apply remove_char_lacks.
  split; [exact H1|]. split; [exact H2|]. split.
  - by rewrite (remove_char_id "[" _ H1), (remove_char_id "]" _ H2).
  - intros Ha Hb. by rewrite (remove_char_id "[" s Ha), (remove_char_id "]" s Hb).
Qed.

(** A name without brackets. *)
Lemma strip_brackets_leaves_no_bracket_witness :
  strip_brackets "Fix bug (urgent)" = "Fix bug (urgent)".
Proof.
  apply (proj2 (proj2 (proj2 (strip_brackets_leaves_no_bracket "Fix bug (urgent)"))));
    reflexivity.
Defined.

(** ** Task lines *)

(** Property X14.  A project that the cache resolves is shown in the suffix
    "(Project: name)", except a project whose name is the default text
    "Unknown Project", which is rendered as if it were unresolved. *)
Theorem resolved_project_is_shown info cache name url pid st :
  projects info = Val cache ->
  (forall pname,
     cache !! pid = Some pname ->
     pname <> Some unknown_project ->
     format_task_line info (name, url, Some pid, st) =
       Ok ("- [ ] [" ++ py_str name ++ "](" ++ py_str url ++ ")"
             ++ " (Project: " ++ py_str pname ++ ")" ++ status_suffix st))
  /\ (cache !! pid = Some (Some unknown_project) ->
      format_task_line info (name, url, Some pid, st) =
        Ok ("- [ ] [" ++ py_str name ++ "](" ++ py_str url ++ ")"
              ++ status_suffix st)).
Proof.
  intros Hproj. split.
  - intros pname Hpid Hne. unfold format_task_line. rewrite Hproj. cbn.
    rewrite Hpid. rewrite decide_False by done.
    unfold status_suffix. f_equal. destruct st as [s|].
    + destruct (negb (String.eqb s "") && negb (String.eqb s "Unknown")).
      * by rewrite !append_assoc.
      * by rewrite !append_assoc, append_nil_r.
    + by rewrite !append_assoc, append_nil_r.
  - intros Hpid. unfold format_task_line. rewrite Hproj. cbn.
    rewrite Hpid. rewrite decide_True by done.
    unfold status_suffix. f_equal. destruct st as [s|].
    + destruct (negb (String.eqb s "") && negb (String.eqb s "Unknown")).
      * by rewrite !append_assoc.
      * by rewrite append_nil_r.
    + by rewrite append_nil_r.
Qed.

(** The project "p1" of the sample cache. *)
Lemma resolved_project_is_shown_witness :
  format_task_line alpha_info (Some "Fix bug", Some "http://x/1", Some "p1", Some "High")
  = Ok ("- [ ] [" ++ "Fix bug" ++ "](" ++ "http://x/1" ++ ")"
          ++ " (Project: " ++ "Alpha" ++ ")" ++ ", Status: High").
Proof.
  apply (proj1 (resolved_project_is_shown alpha_info {[ "p1" := Some "Alpha" ]}
                  (Some "Fix bug") (Some "http://x/1") "p1" (Some "High") eq_refl)
           (Some "Alpha")).
  - reflexivity.
  - discriminate.
Defined.

(** ** Filters *)

Lemma open_status e :
  entry_status e <> Some "Done" -> property_holds e status_not_done = true.
Proof. intros Hst. cbn. by rewrite bool_decide_eq_false_2. Qed.

Lemma done_status e :
  entry_status e = Some "Done" -> property_holds e status_not_done = false.
Proof. intros Hst. cbn. by rewrite bool_decide_eq_true_2. Qed.

Lemma due_property e cs :
  property_holds e (date_filter "Due" cs)
  = forallb (fun c => date_holds c (entry_due e)) cs.
Proof. reflexivity. Qed.

(** Property X15.  A task whose status is "Done", and an open task due after
    today, match none of the five filters. *)
Theorem done_and_future_tasks_match_no_filter e today :
  entry_status e = Some "Done"
  \/ (exists d, entry_due e = Some d /\ today < d) ->
  matches (high_priority_filter today) e = false
  /\ matches (due_today_filter today) e = false
  /\ matches (overdue_filter today (today - 7)) e = false
  /\ matches no_due_date_filter e = false
  /\ matches (older_overdue_filter (today - 7)) e = false.
Proof.
  unfold matches, high_priority_filter, due_today_filter, overdue_filter,
    no_due_date_filter, older_overdue_filter.
  cbn [forallb]. rewrite !due_property. intros [Hdone|(d & Hdue & Hd)].
  - rewrite (done_status e Hdone). done.
  - rewrite Hdue. cbn [forallb date_holds].
    replace (d =? today) with false by (symmetry; apply Z.eqb_neq; lia).
    replace (d <=? today) with false by (symmetry; apply Z.leb_gt; lia).
    replace (d <? today - 7) with false by (symmetry; apply Z.ltb_ge; lia).
    cbn [andb negb]. by rewrite !andb_false_r.
Qed.

(** A task due four days ahead. *)
Lemma done_and_future_tasks_match_no_filter_witness :
  matches (high_priority_filter (mk_date 2024 3 1)) future_entry = false
  /\ matches (due_today_filter (mk_date 2024 3 1)) future_entry = false
  /\ matches (overdue_filter (mk_date 2024 3 1) (mk_date 2024 3 1 - 7)) future_entry = false
  /\ matches no_due_date_filter future_entry = false
  /\ matches (older_overdue_filter (mk_date 2024 3 1 - 7)) future_entry = false.
Proof.
  apply (done_and_future_tasks_match_no_filter future_entry (mk_date 2024 3 1)).
  right. exists (mk_date 2024 3 5). split; reflexivity.
Defined.

(** Property X16.  An open task without a due date matches the no-due-date
    filter only; one due before today - 7 matches older-overdue and not
    overdue; one due from today - 7 to today matches overdue and not
    older-overdue; and whatever matches high-priority matches one of the two
    overdue filters. *)
Theorem open_task_falls_in_one_range e today :
  entry_status e <> Some "Done" ->
  (entry_due e = None ->
     matches no_due_date_filter e = true
     /\ matches (older_overdue_filter (today - 7)) e = false
     /\ matches (overdue_filter today (today - 7)) e = false
     /\ matches (due_today_filter today) e = false
     /\ matches (high_priority_filter today) e = false)
  /\ (forall d, entry_due e = Some d -> d < today - 7 ->
        matches (older_overdue_filter (today - 7)) e = true
        /\ matches (overdue_filter today (today - 7)) e = false
        /\ matches (due_today_filter today) e = false
        /\ matches no_due_date_filter e = false)
  /\ (forall d, entry_due e = Some d -> today - 7 <= d <= today ->
        matches (overdue_filter today (today - 7)) e = true
        /\ matches (older_overdue_filter (today - 7)) e = false
        /\ matches no_due_date_filter e = false)
  /\ (matches (high_priority_filter today) e = true ->
        matches (overdue_filter today (today - 7)) e = true
        \/ matches (older_overdue_filter (today - 7)) e = true).
Proof.
  intros Hopen. pose proof (open_status e Hopen) as Hst.
  unfold matches, high_priority_filter, due_today_filter, overdue_filter,
    no_due_date_filter, older_overdue_filter.
  cbn [forallb]. rewrite !due_property, Hst. cbn [andb].
  split; [|split; [|split]].
  - intros ->. cbn. by rewrite !andb_false_r.
  - intros d -> Hd. cbn [forallb date_holds andb negb].
    replace (d <? today - 7) with true by (symmetry; apply Z.ltb_lt; lia).
    replace (today - 7 <=? d) with false by (symmetry; apply Z.leb_gt; lia).
    replace (d =? today) with false by (symmetry; apply Z.eqb_neq; lia).
    by rewrite !andb_false_r.
  - intros d -> Hd. cbn [forallb date_holds andb negb].
    replace (d <? today - 7) with false by (symmetry; apply Z.ltb_ge; lia).
    replace (today - 7 <=? d) with true by (symmetry; apply Z.leb_le; lia).
    replace (d <=? today) with true by (symmetry; apply Z.leb_le; lia).
    done.
  - destruct (entry_due e) as [d|]; cbn [forallb date_holds andb].
    + rewrite !andb_true_r. intros [_ Hd]%andb_true_iff.
      rewrite Hd. cbn [andb].
      destruct (Z.ltb_spec d (today - 7)); [by right|left].
      by apply Z.leb_le.
    + by rewrite andb_false_r.
Qed.

(** The task due on the sample morning. *)
Lemma open_task_falls_in_one_range_witness :
  matches (overdue_filter (mk_date 2024 3 1) (mk_date 2024 3 1 - 7)) fix_bug_entry = true
  /\ matches (older_overdue_filter (mk_date 2024 3 1 - 7)) fix_bug_entry = false
  /\ matches no_due_date_filter fix_bug_entry = false.
Proof.
  destruct (open_task_falls_in_one_range fix_bug_entry (mk_date 2024 3 1))
    as (_ & _ & Hrecent & _).
  - discriminate.
  - apply (Hrecent (mk_date 2024 3 1)); [reflexivity|].
    split; vm_compute; discriminate.
Defined.

(** ** The buckets of [get_tasks] *)

(** Property X17.  When the clock can be read, [get_tasks] sends its five
    queries in order and touches no file; a list bucket is the answer's pages
    normalised in the answer's order, a count bucket is the number of pages,
    and an answer without "results" gives the empty bucket. *)
Theorem get_tasks_reads_each_answer E w :
  fault E (AtNow (ticks w)) = None ->
  let today := date_of (clock E (ticks w)) in
  exists r w',
    get_tasks E w = (Ok r, w')
    /\ fs w' = fs w
    /\ queries w' = (queries w ++ (bucket_request today <$> all_buckets))%list
    /\ forall b,
         (forall pages,
            query E (bucket_request today b) = Ok {| results := Val pages |} ->
            bucket_at b r =
              match b with
              | HighPriority | DueToday | Overdue7Days => inl (normalized pages)
              | NoDueDate | OlderOverdue => inr (List.length pages)
              end)
         /\ (query E (bucket_request today b) = Ok {| results := Absent |} ->
             bucket_at b r = empty_bucket b).
Proof.
  intros Hclock today.
  destruct (get_tasks_run E w Hclock) as (l & Hrun & _). fold today in Hrun.
  eexists _, _. split; [exact Hrun|]. split; [reflexivity|]. split; [reflexivity|].
  intros b. unfold buckets_of. split.
  - intros pages Hq.
    destruct b; cbn [bucket_at]; unfold list_bucket, count_bucket, response_pages;
      by rewrite Hq.
  - intros Hq.
    destruct b; cbn [bucket_at empty_bucket];
      unfold list_bucket, count_bucket, response_pages; by rewrite Hq.
Qed.

(** The store with the sample task. *)
Lemma get_tasks_reads_each_answer_witness :
  exists r w',
    get_tasks (store_env steady_clock [fix_bug_entry]) empty_world = (Ok r, w')
    /\ fs w' = fs empty_world
    /\ queries w' =
         (queries empty_world
            ++ (bucket_request (date_of (steady_clock (ticks empty_world)))
                  <$> all_buckets))%list
    /\ forall b,
         (forall pages,
            query (store_env steady_clock [fix_bug_entry])
              (bucket_request (date_of (steady_clock (ticks empty_world))) b)
            = Ok {| results := Val pages |} ->
            bucket_at b r =
              match b with
              | HighPriority | DueToday | Overdue7Days => inl (normalized pages)
              | NoDueDate | OlderOverdue => inr (List.length pages)
              end)
         /\ (query (store_env steady_clock [fix_bug_entry])
               (bucket_request (date_of (steady_clock (ticks empty_world))) b)
             = Ok {| results := Absent |} ->
             bucket_at b r = empty_bucket b).
Proof.
  apply (get_tasks_reads_each_answer (store_env steady_clock [fix_bug_entry]) empty_world).
  reflexivity.
Defined.

(** Property X18.  A page whose [Name] has an empty title makes [process_task]
    log an [IndexError] and return nothing, so the task is left out of every
    list bucket. *)
Theorem untitled_task_is_dropped t props name_prop :
  properties t = Val props ->
  prop_Name props = Val name_prop ->
  title name_prop = Val [] ->
  process_task_body t = Raise IndexError
  /\ (forall w,
        process_task t w =
          (Ok None,
           add_log (error_record [Txt "Error processing task: "; Exn IndexError]) w))
  /\ (forall pages, normalized (t :: pages) = normalized pages).
Proof.
  intros Hprops Hname Htitle.
  assert (Hbody : process_task_body t = Raise IndexError).
  { unfold process_task_body. rewrite Hprops. cbn. rewrite Hname. cbn.
    by rewrite Htitle. }
  split; [exact Hbody|]. split.
  - intros w. unfold process_task, try_except, mbind, M_bind, lift.
    by rewrite Hbody.
  - intros pages. unfold normalized. cbn [omap list_omap]. by rewrite Hbody.
Qed.

(** The untitled sample page. *)
Lemma untitled_task_is_dropped_witness :
  process_task_body untitled_task_page = Raise IndexError
  /\ (forall w,
        process_task untitled_task_page w =
          (Ok None,
           add_log (error_record [Txt "Error processing task: "; Exn IndexError]) w))
  /\ (forall pages, normalized (untitled_task_page :: pages) = normalized pages).
Proof.
  eapply (untitled_task_is_dropped untitled_task_page); reflexivity.
Defined.

(** ** A successful run *)

Lemma appends_same_fs {A : Type} (m : M A) :
  (forall w, fs (snd (m w)) = fs w) -> appends m.
Proof.
  intros H w p. exists "". rewrite H, append_nil_r. done.
Qed.

Lemma appends_ret {A : Type} (a : A) : appends (mret a).
Proof. by apply appends_same_fs. Qed.

Lemma appends_bind {A B : Type} (m : M A) (k : A -> M B) :
  appends m -> (forall a, appends (k a)) -> appends (m ≫= k).
Proof.
  intros Hm Hk w p. unfold mbind, M_bind. destruct (Hm w p) as (s1 & Hs1 & He1).
  destruct (m w) as [[a|e] w1]; cbn [snd] in *; [|by exists s1].
  destruct (Hk a w1 p) as (s2 & Hs2 & He2).
  exists (s1 ++ s2). rewrite Hs2, Hs1, append_assoc. auto.
Qed.

Lemma appends_try {A : Type} (m : M A) (h : exn -> M A) :
  appends m -> (forall e, appends (h e)) -> appends (try_except m h).
Proof.
  intros Hm Hh w p. unfold try_except. destruct (Hm w p) as (s1 & Hs1 & He1).
  destruct (m w) as [[a|e] w1]; cbn [snd] in *; [by exists s1|].
  destruct (Hh e w1 p) as (s2 & Hs2 & He2).
  exists (s1 ++ s2). rewrite Hs2, Hs1, append_assoc. auto.
Qed.

Lemma appends_for_each {A : Type} (l : list A) (body : A -> M unit) :
  (forall x, appends (body x)) -> appends (for_each l body).
Proof.
  intros Hbody. induction l as [|x l IH]; cbn [for_each].
  - apply appends_ret.
  - apply appends_bind; [apply Hbody|]. intros _. apply IH.
Qed.

Lemma appends_logger l msg : appends (logger l msg).
Proof. by apply appends_same_fs. Qed.

Lemma appends_lift {A : Type} (r : result A) : appends (lift r).
Proof. by apply appends_same_fs. Qed.

Lemma appends_file_write E q s : appends (file_write E q s).
Proof.
  intros w p. unfold file_write. destruct (fault E _).
  - exists "". cbn. by rewrite append_nil_r.
  - change (count_write (set_fs _ w)) with (put_text (clock E (ticks w)) q s w).
    cbn [snd]. destruct (decide (p = q)) as [->|Hne].
    + exists s. rewrite file_text_put_text_eq. split; [done|].
      intros _. unfold put_text. cbn. rewrite lookup_insert_eq. eauto.
    + exists "". rewrite file_text_put_text_ne, append_nil_r by done.
      split; [done|]. unfold put_text. cbn. by rewrite lookup_insert_ne.
Qed.

Lemma appends_write_section E info title tasks :
  appends (write_section E info title tasks).
Proof.
  unfold write_section. destruct tasks as [|t tasks]; [apply appends_ret|].
  apply appends_try; [|intros e; apply appends_logger].
  apply appends_bind; [apply appends_file_write|]. intros _.
  apply appends_bind; [apply appends_file_write|]. intros _.
  apply appends_bind.
  - apply appends_for_each. intros x. unfold write_task.
    apply appends_try; [|intros e; apply appends_logger].
    apply appends_bind; [apply appends_lift|]. intros line.
    apply appends_bind; [apply appends_file_write|]. intros _.
    apply appends_file_write.
  - intros _. apply appends_bind; [apply appends_file_write|]. intros _.
    apply appends_file_write.
Qed.

Lemma write_section_ok E info title tasks w :
  fst (write_section E info title tasks w) = Ok tt.
Proof.
  unfold write_section. destruct tasks as [|t tasks]; [reflexivity|].
  unfold try_except.
  match goal with |- context [match ?body w with _ => _ end] =>
    by destruct (body w) as [[[]|e] w1] end.
Qed.

Lemma succeeds_ret {A : Type} (a : A) : succeeds (mret a).
Proof. intros w. by exists a. Qed.

Lemma succeeds_bind {A B : Type} (m : M A) (k : A -> M B) :
  succeeds m -> (forall a, succeeds (k a)) -> succeeds (m ≫= k).
Proof.
  intros Hm Hk w. unfold mbind, M_bind. destruct (Hm w) as [a Ha].
  destruct (m w) as [[a'|e] w1]; cbn in Ha; [|done]. apply Hk.
Qed.

Lemma succeeds_file_write E q s :
  (forall x, fault E x = None) -> succeeds (file_write E q s).
Proof. intros Hq w. rewrite file_write_run by apply Hq. by exists tt. Qed.

Lemma succeeds_write_section E info title tasks :
  succeeds (write_section E info title tasks).
Proof. intros w. exists tt. apply write_section_ok. Qed.

Lemma run_succeeds_appends {A : Type} (m : M A) w :
  succeeds m -> appends m ->
  exists a w',
    m w = (Ok a, w')
    /\ forall p, exists s,
         file_text (fs w') p = file_text (fs w) p ++ s
         /\ (is_Some (fs w !! p) -> is_Some (fs w' !! p)).
Proof.
  intros Hs Ha. destruct (Hs w) as [a Hok]. specialize (Ha w).
  destruct (m w) as [r w']. cbn in *. subst r. by exists a, w'.
Qed.

Lemma write_report_run E info b w :
  (forall x, fault E x = None) ->
  exists w',
    write_report E info b w = (Ok tt, w')
    /\ forall p, p = REPORT_FILE_MD \/ p = REPORT_FILE_TXT ->
         is_Some (fs w' !! p)
         /\ exists s,
              file_text (fs w') p
              = file_text (fs w) p ++ report_title (clock E (ticks w)) ++ s.
Proof.
  intros Hq. destruct b as [[[[hp dt] od] nd] oo]. unfold write_report.
  unfold mbind at 1, M_bind at 1. unfold now. rewrite Hq.
  fold (report_title (clock E (ticks w))).
  set (ttl := report_title (clock E (ticks w))).
  unfold mbind at 1, M_bind at 1. rewrite file_write_run by apply Hq.
  unfold mbind at 1, M_bind at 1. rewrite file_write_run by apply Hq.
  match goal with |- context [?m (put_text ?c ?q ?s ?w1) = _] =>
    set (w2 := put_text c q s w1);
    destruct (run_succeeds_appends m w2) as ([] & w' & Hrun & Hfacts)
  end.
  - apply succeeds_bind; [apply succeeds_write_section|]. intros _.
    apply succeeds_bind; [apply succeeds_write_section|]. intros _.
    apply succeeds_bind; [apply succeeds_write_section|]. intros _.
    apply succeeds_bind.
    + destruct (oo =? 0)%nat; [apply succeeds_ret|].
      apply succeeds_bind; [by apply succeeds_file_write|]. intros _.
      by apply succeeds_file_write.
    + intros _. destruct (nd =? 0)%nat; [apply succeeds_ret|].
      apply succeeds_bind; [by apply succeeds_file_write|]. intros _.
      by apply succeeds_file_write.
  - apply appends_bind; [apply appends_write_section|]. intros _.
    apply appends_bind; [apply appends_write_section|]. intros _.
    apply appends_bind; [apply appends_write_section|]. intros _.
    apply appends_bind.
    + destruct (oo =? 0)%nat; [apply appends_ret|].
      apply appends_bind; [apply appends_file_write|]. intros _.
      apply appends_file_write.
    + intros _. destruct (nd =? 0)%nat; [apply appends_ret|].
      apply appends_bind; [apply appends_file_write|]. intros _.
      apply appends_file_write.
  - exists w'. split; [exact Hrun|]. intros p Hp.
    destruct (Hfacts p) as (s & Hs & Hex).
    pose proof report_files_differ as Hne.
    split.
    + apply Hex. subst w2. unfold put_text. cbn.
      destruct Hp as [-> | ->].
      * rewrite lookup_insert_ne by done. rewrite lookup_insert_eq. eauto.
      * rewrite lookup_insert_eq. eauto.
    + exists s. rewrite Hs. subst w2. destruct Hp as [-> | ->].
      * rewrite file_text_put_text_ne, file_text_put_text_eq by done.
        by rewrite append_assoc.
      * rewrite file_text_put_text_eq, file_text_put_text_ne by done.
        by rewrite append_assoc.
Qed.

Lemma rotate_and_cleanup_ok E w :
  (forall x, fault E x = None) ->
  (is_Some (fs w !! REPORT_FILE_MD) -> is_Some (fs w !! REPORT_FILE_TXT)) ->
  exists w', rotate_and_cleanup E w = (Ok tt, w').
Proof.
  intros Hq Hpair. destruct (fs w !! REPORT_FILE_MD) as [f|] eqn:Hmd.
  - destruct Hpair as [g Htxt]; [eauto|].
    destruct (rotate_and_cleanup_run E w f g Hmd Htxt (Hq _) (Hq _))
      as (w' & Hrun & _). eauto.
  - rewrite rotate_without_current by done.
    destruct (cleanup_old_files_run E w (Hq _)) as (lg & m' & -> & _). eauto.
Qed.

(** Property X19.  Without faults, with a loadable cache and no rich report
    lacking its plain twin, [generate_report] returns normally, and afterwards
    both report files exist and start with the same title. *)
Theorem generate_report_succeeds E w info mt :
  (forall x, fault E x = None) ->
  fs w !! PROJECTS_JSON_FILE = Some {| data := Json info; mtime := mt |} ->
  (is_Some (fs w !! REPORT_FILE_MD) -> is_Some (fs w !! REPORT_FILE_TXT)) ->
  exists w' n,
    generate_report E w = (Ok tt, w')
    /\ forall p, p = REPORT_FILE_MD \/ p = REPORT_FILE_TXT ->
         is_Some (fs w' !! p)
         /\ is_prefix (report_title (clock E n)) (file_text (fs w') p) = true.
Proof.
  intros Hq Hcache Hpair. unfold generate_report, try_except.
  unfold mbind at 1, M_bind at 1.
  destruct (get_tasks_frame E w) as (b & lg & qs & ->).
  unfold mbind at 1, M_bind at 1. unfold logger at 1.
  unfold mbind at 1, M_bind at 1. unfold json_load. cbn [fs add_log].
  rewrite Hcache.
  unfold mbind at 1, M_bind at 1.
  match goal with |- context [rotate_and_cleanup E ?w1] =>
    destruct (rotate_and_cleanup_ok E w1 Hq Hpair) as (w3 & ->) end.
  unfold mbind at 1, M_bind at 1. unfold open_w at 1.
  unfold mbind at 1, M_bind at 1. unfold open_w at 1.
  unfold mbind at 1, M_bind at 1.
  match goal with |- context [write_report E info b ?w0] =>
    set (w5 := w0); destruct (write_report_run E info b w5 Hq) as (w6 & -> & Hfiles) end.
  unfold logger. eexists _, (ticks w5). split; [reflexivity|].
  intros p Hp. destruct (Hfiles p Hp) as (Hex & s & Hs). cbn [fs add_log].
  split; [exact Hex|]. rewrite Hs.
  assert (file_text (fs w5) p = "") as ->.
  { pose proof report_files_differ as Hne. subst w5. unfold file_text. cbn.
    destruct Hp as [-> | ->].
    - rewrite lookup_insert_ne by done. by rewrite lookup_insert_eq.
    - by rewrite lookup_insert_eq. }
  apply (is_prefix_append (report_title (clock E (ticks w5))) s).
Qed.

(** A quiet run over the files of the evening before. *)
Lemma generate_report_succeeds_witness :
  exists w' n,
    generate_report quiet_env yesterday_world = (Ok tt, w')
    /\ forall p, p = REPORT_FILE_MD \/ p = REPORT_FILE_TXT ->
         is_Some (fs w' !! p)
         /\ is_prefix (report_title (clock quiet_env n)) (file_text (fs w') p) = true.
Proof.
  apply (generate_report_succeeds quiet_env yesterday_world
           {| generated_at := mk_datetime 2024 2 29 20 0 0;
              projects := Val {[ "p1" := Some "Alpha" ]} |}
           (mk_datetime 2024 2 29 20 0 0)).
  - intros x. reflexivity.
  - vm_compute. reflexivity.
  - intros _. vm_compute. eauto.
Defined.
